(** * Product image scraper: scoring, merging, ranking and download

    A shallow embedding of [scripts/image_scraper.py] (class
    [ProductImageScraper]) and of the search half of
    [product_image_downloader.py] (class [ProductImageDownloader]),
    with the properties of the acquisition pipeline stated over it.

    Conventions.
    - Python [int] is [Z]; Python [float] is a primitive binary64 float
      ([PrimFloat]), so [score += 0.4] rounds here as it does in CPython.
    - Python [str] is [string] (a byte string holding UTF-8).
    - A Python [dict] literal is a [gmap]; the file system is a
      [gmap string bytes].
    - Code that talks to the network, the clock or the disk is written in a
      small free monad [io] whose effects are answered by a [world]. *)

From Stdlib Require Import ZArith List String Ascii Bool Lia Permutation.
From Stdlib Require Import DecimalString.
From Stdlib Require Import QArith PrimFloat Uint63.
From stdpp Require Import gmap strings list.

#[local] Set Warnings "-inexact-float".

Local Open Scope string_scope.
Local Open Scope Z_scope.

(** ** Python string helpers *)

Module Py.

(** [c.lower()] on an ASCII letter; other bytes are unchanged. *)
Definition ascii_lower (c : ascii) : ascii :=
  let n := nat_of_ascii c in
  if (Nat.leb 65 n && Nat.leb n 90)%bool then ascii_of_nat (n + 32) else c.

(** [s.lower()] on the UTF-8 bytes: ASCII letters are lowered and every
    other byte is kept.  This is Python's result on ASCII text.  The
    lowered values are only ever compared with ASCII strings (by equality
    or by [in]); on text free of U+0130 and U+212A, the two characters
    whose lower case contains an ASCII letter, those comparisons come out
    as in Python, because the ASCII characters of the result are the same
    and sit between the same non-ASCII neighbours. *)
Fixpoint lower (s : string) : string :=
  match s with
  | EmptyString => EmptyString
  | String c r => String (ascii_lower c) (lower r)
  end.

(** [min(a, b)] on floats: Python returns [a] unless [b < a]. *)
Definition fmin (a b : float) : float :=
  if PrimFloat.ltb b a then b else a.

(** [str(n)] for an [int]. *)
Definition str_of_int (n : Z) : string :=
  NilEmpty.string_of_int (Z.to_int n).

(** [list(dict.fromkeys(l))]: the distinct elements of [l], each at its
    first position. *)
Fixpoint fromkeys_from (seen : gset string) (l : list string) : list string :=
  match l with
  | [] => []
  | x :: r =>
      if decide (x ∈ seen) then fromkeys_from seen r
      else x :: fromkeys_from ({[x]} ∪ seen) r
  end.
Definition dict_fromkeys (l : list string) : list string :=
  fromkeys_from ∅ l.

(** Membership in the class [[a-zA-Z0-9\s]] for an ASCII character. *)
Definition is_alnum_or_space (c : ascii) : bool :=
  let n := nat_of_ascii c in
  ((Nat.leb 48 n && Nat.leb n 57) || (Nat.leb 65 n && Nat.leb n 90)
   || (Nat.leb 97 n && Nat.leb n 122)
   || (Nat.leb 9 n && Nat.leb n 13) || (Nat.leb 28 n && Nat.leb n 32))%bool.

(** [re.sub(r'[^a-zA-Z0-9\s]', '', s)], exact on ASCII text (a non-ASCII
    byte is dropped, as every non-ASCII character other than Unicode white
    space is). *)
Fixpoint strip_non_alnum (s : string) : string :=
  match s with
  | EmptyString => EmptyString
  | String c r =>
      if is_alnum_or_space c then String c (strip_non_alnum r)
      else strip_non_alnum r
  end.

(** [s.replace(' ', '_')]. *)
Fixpoint spaces_to_underscores (s : string) : string :=
  match s with
  | EmptyString => EmptyString
  | String c r =>
      String (if Ascii.eqb c " " then "_"%char else c) (spaces_to_underscores r)
  end.

(** [s.replace(' ', '-')]. *)
Fixpoint spaces_to_hyphens (s : string) : string :=
  match s with
  | EmptyString => EmptyString
  | String c r =>
      String (if Ascii.eqb c " " then "-"%char else c) (spaces_to_hyphens r)
  end.

(** [sub in s]. *)
Fixpoint contains (sub s : string) : bool :=
  if String.prefix sub s then true
  else match s with
       | EmptyString => false
       | String _ r => contains sub r
       end.

(** [s[:n]], exact on ASCII text. *)
Definition slice_to (n : nat) (s : string) : string := String.substring 0 n s.

(** ASCII white space as [str.strip] sees it. *)
Definition is_space (c : ascii) : bool :=
  let n := nat_of_ascii c in
  ((Nat.leb 9 n && Nat.leb n 13) || (Nat.leb 28 n && Nat.leb n 32))%bool.

Fixpoint lstrip (s : string) : string :=
  match s with
  | EmptyString => EmptyString
  | String c r => if is_space c then lstrip r else s
  end.

Fixpoint rstrip (s : string) : string :=
  match s with
  | EmptyString => EmptyString
  | String c r =>
      match rstrip r with
      | EmptyString => if is_space c then EmptyString else String c EmptyString
      | r' => String c r'
      end
  end.

(** [s.strip()], exact on ASCII text. *)
Definition strip (s : string) : string := rstrip (lstrip s).

Definition hex_digit (n : nat) : ascii :=
  if Nat.ltb n 10 then ascii_of_nat (48 + n) else ascii_of_nat (55 + n).

(** A byte [urllib.parse.quote] leaves alone: a letter, a digit, one of
    [_.-~], or the default safe character [/]. *)
Definition is_unreserved (c : ascii) : bool :=
  let n := nat_of_ascii c in
  ((Nat.leb 48 n && Nat.leb n 57) || (Nat.leb 65 n && Nat.leb n 90)
   || (Nat.leb 97 n && Nat.leb n 122)
   || Nat.eqb n 95 || Nat.eqb n 46 || Nat.eqb n 45 || Nat.eqb n 126
   || Nat.eqb n 47)%bool.

(** [urllib.parse.quote(s)]: every other byte of the UTF-8 encoding becomes
    [%XX]. *)
Fixpoint quote (s : string) : string :=
  match s with
  | EmptyString => EmptyString
  | String c r =>
      if is_unreserved c then String c (quote r)
      else
        let n := nat_of_ascii c in
        String "%" (String (hex_digit (n / 16))
                      (String (hex_digit (n mod 16)) (quote r)))
  end.

Definition starts_with_slash (s : string) : bool :=
  match s with
  | String c _ => Ascii.eqb c "/"
  | EmptyString => false
  end.

Fixpoint ends_with_slash (s : string) : bool :=
  match s with
  | EmptyString => false
  | String c EmptyString => Ascii.eqb c "/"
  | String _ r => ends_with_slash r
  end.

(** [os.path.join(a, b)] (posixpath, two components). *)
Definition os_path_join (a b : string) : string :=
  if starts_with_slash b then b
  else if (String.eqb a "" || ends_with_slash a)%bool then a ++ b
  else a ++ "/" ++ b.

End Py.

(** ** Quality scoring *)

Module Scorer.

(** The [format_scores] dict literal of [_calculate_quality_score]. *)
Definition format_scores : gmap string float :=
  list_to_map
    [ ("jpeg", 0.2%float); ("jpg", 0.2%float); ("png", 0.18%float);
      ("webp", 0.15%float); ("gif", 0.05%float) ].

(** [max(width, height) / min(width, height) <= num/den], for a positive
    shorter side.  Python divides two [int]s into the correctly rounded
    double and compares it with [1.5] or [2.0]; both bounds are doubles, and
    for a shorter side below [2^52] the exact quotient is either at most the
    bound or exceeds it by more than half an ulp, so the rounded comparison
    is the exact one, written here by cross-multiplication.  (Image
    dimensions are far below that, and far from overflowing the division.) *)
Definition aspect_ratio_le (max_dim min_dim num den : Z) : bool :=
  max_dim * den <=? num * min_dim.

(** [ProductImageScraper._calculate_quality_score]. *)
Definition _calculate_quality_score
    (width height file_size : Z) (format : string) : float :=
  let score := 0%float in
  (* Resolution score (40% weight) *)
  let min_dim := Z.min width height in
  let max_dim := Z.max width height in
  let score :=
    if (400 <=? min_dim) && (max_dim <=? 1200) then (score + 0.4)%float
    else if (200 <=? min_dim) && (max_dim <=? 2000) then (score + 0.3)%float
    else if 100 <=? min_dim then (score + 0.15)%float
    else score in
  (* Aspect ratio score (20% weight) *)
  let score :=
    if (0 <? width) && (0 <? height) then
      if aspect_ratio_le (Z.max width height) (Z.min width height) 3 2
      then (score + 0.2)%float
      else if aspect_ratio_le (Z.max width height) (Z.min width height) 2 1
      then (score + 0.1)%float
      else score
    else score in
  (* File size score (20% weight) *)
  let score :=
    if 0 <? file_size then
      if (10000 <=? file_size) && (file_size <=? 500000)
      then (score + 0.2)%float
      else if (5000 <=? file_size) && (file_size <=? 1000000)
      then (score + 0.1)%float
      else score
    else score in
  (* Format score (20% weight) *)
  let score :=
    (score + default 0.05%float (format_scores !! Py.lower format))%float in
  Py.fmin score 1%float.

End Scorer.

(** ** The scoring rule as the specification words it

    Weights and factors are exact rationals; a contribution is the double
    nearest to [weight * factor], and the contributions are added as doubles
    in the order resolution, aspect ratio, byte size, format. *)

Module ScorerSpec.

Inductive image_format := Jpeg | Png | Webp | Gif | Unknown.

(** The encoding named by a format string, case-insensitively; ["jpg"] is
    the other spelling of JPEG. *)
Definition classify (format : string) : image_format :=
  let f := Py.lower format in
  if String.eqb f "jpeg" then Jpeg
  else if String.eqb f "jpg" then Jpeg
  else if String.eqb f "png" then Png
  else if String.eqb f "webp" then Webp
  else if String.eqb f "gif" then Gif
  else Unknown.

Definition weight_resolution : Q := 0.4.
Definition weight_aspect : Q := 0.2.
Definition weight_size : Q := 0.2.
Definition weight_format : Q := 0.2.

Definition resolution_factor (width height : Z) : Q :=
  let shorter := Z.min width height in
  let longer := Z.max width height in
  if (400 <=? shorter) && (longer <=? 1200) then 1
  else if (200 <=? shorter) && (longer <=? 2000) then 0.75
  else if 100 <=? shorter then 0.375
  else 0.

Definition aspect_factor (width height : Z) : Q :=
  let shorter := Z.min width height in
  let longer := Z.max width height in
  if (0 <? width) && (0 <? height) then
    if longer * 2 <=? 3 * shorter then 1
    else if longer * 1 <=? 2 * shorter then 0.5
    else 0
  else 0.

Definition size_factor (byte_size : Z) : Q :=
  if 0 <? byte_size then
    if (10000 <=? byte_size) && (byte_size <=? 500000) then 1
    else if (5000 <=? byte_size) && (byte_size <=? 1000000) then 0.5
    else 0
  else 0.

Definition format_factor (f : image_format) : Q :=
  match f with
  | Jpeg => 1
  | Png => 0.9
  | Webp => 0.75
  | Gif => 0.25
  | Unknown => 0.25
  end.

(** The double nearest to a small non-negative rational: both parts are
    exact as doubles and IEEE division rounds the quotient once. *)
Definition to_float (q : Q) : float :=
  (of_uint63 (Uint63.of_Z (Qnum q))
   / of_uint63 (Uint63.of_Z (Zpos (Qden q))))%float.

Definition contribution (weight factor : Q) : float :=
  to_float (weight * factor).

Definition clamp01 (x : float) : float :=
  if PrimFloat.ltb x 0 then 0%float
  else if PrimFloat.ltb 1 x then 1%float
  else x.

Definition score (width height byte_size : Z) (format : string) : float :=
  clamp01
    (contribution weight_resolution (resolution_factor width height)
     + contribution weight_aspect (aspect_factor width height)
     + contribution weight_size (size_factor byte_size)
     + contribution weight_format (format_factor (classify format)))%float.

End ScorerSpec.

(** ** Data model *)

Definition bytes := list Byte.byte.

(** [@dataclass ImageResult]. *)
Module ImageResult.
Record t := mk {
  url : string;
  source : string;
  quality_score : float;
  width : Z;
  height : Z;
  file_size : Z;
  format : string;
  error : option string
}.
End ImageResult.

(** [@dataclass ScrapeResult]. *)
Module ScrapeResult.
Record t := mk {
  success : bool;
  product_name : string;
  brand_name : string;
  images : list ImageResult.t;
  best_image : option ImageResult.t;
  local_path : option string;
  sources_searched : list string;
  error : option string
}.
End ScrapeResult.

(** ** Effects

    The scraper reaches the outside through [requests], PIL, [time] and
    [os].  Each call is an [effect]; a program is a tree of effects ([io]);
    a [world] answers them.  An exception raised by a call is the [inl]
    (or [Some]) answer, carrying its message. *)

Inductive engine := Google | Bing | Ecommerce.

(** What PIL reports about a decodable body: [img.size], [img.format], and
    whether [img.verify()] returns. *)
Record pil_image := {
  img_size : Z * Z;
  img_format : option string;
  img_verify : bool
}.

Variant effect : Type -> Type :=
  (** the body of the [try] block of [search_google_images],
      [search_bing_images] or [search_ecommerce] down to the collected
      [image_urls]: the query, the result page, its parsing and the URL
      filter.  [inl e] when the block raises [e]. *)
| scrape_page (e : engine) (product_name brand_name : string)
    : effect (string + list string)
  (** [session.get(url, ...)], [raise_for_status()], [response.content] *)
| session_get (url : string) : effect (string + bytes)
  (** [Image.open(io.BytesIO(content))] *)
| image_open (content : bytes) : effect (string + pil_image)
  (** [int(time.time() * 1000)] *)
| time_ms : effect Z
  (** [time.sleep(secs)] *)
| time_sleep (secs : Z) : effect unit
  (** [with open(path, 'wb') as f: f.write(content)] *)
| file_write (path : string) (content : bytes) : effect (option string)
  (** [os.path.getsize(path)] *)
| os_getsize (path : string) : effect (string + Z)
  (** [os.remove(path)] *)
| os_remove (path : string) : effect (option string)
  (** one of [ProductImageDownloader.search_google_images],
      [search_bing_images], [search_wikipedia_images], taken whole (its
      retry loop, requests and parsing): the URL list it returns *)
| url_search (source product_name brand_name : string) : effect (list string)
  (** in [search_company_websites]: [session.get(search_url, timeout=10)]
      and, for status 200, the truthy [data-src or src] of the page's
      [img] tags in order; [None] when the request raises or the status
      is not 200 *)
| company_page (search_url : string) : effect (option (list string))
  (** [hash(s)] of a [str], which CPython salts per process *)
| py_hash (s : string) : effect Z.

Inductive io (A : Type) : Type :=
| Ret (a : A)
| Vis (X : Type) (e : effect X) (k : X -> io A).
Arguments Ret {A} a.
Arguments Vis {A} X e k.

Fixpoint io_bind {A B : Type} (f : A -> io B) (m : io A) : io B :=
  match m with
  | Ret a => f a
  | Vis X e k => Vis X e (fun x => io_bind f (k x))
  end.

#[export] Instance io_mret : MRet io := fun A a => Ret a.
#[export] Instance io_mbind : MBind io := fun A B f m => io_bind f m.

Definition trigger {X : Type} (e : effect X) : io X := Vis X e Ret.

(** The outside world.  [net n url] is the body the [n]-th image request
    of the run receives when it asks for [url] ([None]: the request
    raises); [pages] is what a search engine's result page yields; [pil]
    decodes a body; [disk_ok path] tells whether [path] can be opened for
    writing; [url_lists], [company_pages] and [str_hash] answer the
    effects of the same names. *)
Record world := {
  net : nat -> string -> option bytes;
  pages : engine -> string -> string -> string + list string;
  pil : bytes -> option pil_image;
  disk_ok : string -> bool;
  url_lists : string -> string -> string -> list string;
  company_pages : string -> option (list string);
  str_hash : string -> Z;
  clock : Z;
  requests : list string;
  fs : gmap string bytes
}.

Definition set_clock (w : world) (c : Z) : world :=
  {| net := net w; pages := pages w; pil := pil w; disk_ok := disk_ok w;
     url_lists := url_lists w; company_pages := company_pages w;
     str_hash := str_hash w;
     clock := c; requests := requests w; fs := fs w |}.
Definition set_requests (w : world) (r : list string) : world :=
  {| net := net w; pages := pages w; pil := pil w; disk_ok := disk_ok w;
     url_lists := url_lists w; company_pages := company_pages w;
     str_hash := str_hash w;
     clock := clock w; requests := r; fs := fs w |}.
Definition set_fs (w : world) (m : gmap string bytes) : world :=
  {| net := net w; pages := pages w; pil := pil w; disk_ok := disk_ok w;
     url_lists := url_lists w; company_pages := company_pages w;
     str_hash := str_hash w;
     clock := clock w; requests := requests w; fs := m |}.

Definition handle {X : Type} (e : effect X) (w : world) : X * world :=
  match e in effect X return X * world with
  | scrape_page e product_name brand_name =>
      (pages w e product_name brand_name, w)
  | session_get url =>
      (match net w (length (requests w)) url with
       | Some content => inr content
       | None => inl "request failed"
       end,
       set_requests w (requests w ++ [url])%list)
  | image_open content =>
      (match pil w content with
       | Some img => inr img
       | None => inl "cannot identify image file"
       end, w)
  | time_ms => (clock w, w)
  | time_sleep secs => (tt, set_clock w (clock w + 1000 * secs))
  | file_write path content =>
      if disk_ok w path then (None, set_fs w (<[path := content]> (fs w)))
      else (Some "cannot open file", w)
  | os_getsize path =>
      (match fs w !! path with
       | Some content => inr (Z.of_nat (length content))
       | None => inl "no such file"
       end, w)
  | os_remove path =>
      match fs w !! path with
      | Some _ => (None, set_fs w (delete path (fs w)))
      | None => (Some "no such file", w)
      end
  | url_search source product_name brand_name =>
      (url_lists w source product_name brand_name, w)
  | company_page search_url => (company_pages w search_url, w)
  | py_hash s => (str_hash w s, w)
  end.

(** A run to completion. *)
Fixpoint run {A : Type} (m : io A) (w : world) : A * world :=
  match m with
  | Ret a => (a, w)
  | Vis X e k => let (x, w') := handle e w in run (k x) w'
  end.


(** ** The scraper: [class ProductImageScraper] *)

Module Scraper.

Import ImageResult.

(** The attributes of [self] the modelled methods read. *)
Record self_t := { output_dir : string }.

(** [MIN_SOURCES = 2] *)
Definition MIN_SOURCES : Z := 2.

(** A fresh [ImageResult(url=..., source=..., quality_score=0.0)]. *)
Definition found (url source : string) : ImageResult.t :=
  ImageResult.mk url source 0%float 0 0 0 "" None.

(** [ImageResult(url="", source=..., quality_score=0.0, error=str(e))]. *)
Definition failed (source e : string) : ImageResult.t :=
  ImageResult.mk "" source 0%float 0 0 0 "" (Some e).

(** What a search method returns once its [try] block has collected
    [image_urls] or raised: the first [limit] distinct URLs as results, or
    the single error result appended by the [except] clause. *)
Definition search_results (source : string) (limit : nat)
    (outcome : string + list string) : list ImageResult.t :=
  match outcome with
  | inr image_urls =>
      let unique_urls := take limit (Py.dict_fromkeys image_urls) in
      (fun url => found url source) <$> unique_urls
  | inl e => [failed source e]
  end.

Definition search_google_images (product_name brand_name : string)
    : io (list ImageResult.t) :=
  outcome ← trigger (scrape_page Google product_name brand_name);
  mret (search_results "google" 10 outcome).

Definition search_bing_images (product_name brand_name : string)
    : io (list ImageResult.t) :=
  outcome ← trigger (scrape_page Bing product_name brand_name);
  mret (search_results "bing" 8 outcome).

Definition search_ecommerce (product_name brand_name : string)
    : io (list ImageResult.t) :=
  outcome ← trigger (scrape_page Ecommerce product_name brand_name);
  mret (search_results "ecommerce" 5 outcome).

(** [_get_image_info] *)
Definition _get_image_info (url : string) : io (Z * Z * Z * string) :=
  response ← trigger (session_get url);
  match response with
  | inl _ => mret (0, 0, 0, "")
  | inr content =>
      let file_size := Z.of_nat (length content) in
      opened ← trigger (image_open content);
      match opened with
      | inl _ => mret (0, 0, 0, "")
      | inr img =>
          let '(width, height) := img_size img in
          let img_format := default "" (img_format img) in
          mret (width, height, file_size, Py.lower img_format)
      end
  end.

(** [r.url and not r.error] *)
Definition is_valid (r : ImageResult.t) : bool :=
  negb (String.eqb (url r) "")
  && match error r with
     | None => true
     | Some e => String.eqb e ""
     end.

(** The "remove duplicates by URL" loop, from a given [seen_urls]. *)
Fixpoint unique_from (seen_urls : gset string) (all_results : list ImageResult.t)
    : list ImageResult.t :=
  match all_results with
  | [] => []
  | result :: rest =>
      if decide (url result ∈ seen_urls) then unique_from seen_urls rest
      else result :: unique_from ({[url result]} ∪ seen_urls) rest
  end.
Definition unique_by_url (all_results : list ImageResult.t)
    : list ImageResult.t :=
  unique_from ∅ all_results.

(** One turn of the scoring loop: the result with its five measured
    fields assigned. *)
Definition score_candidate (result : ImageResult.t) : io ImageResult.t :=
  info ← _get_image_info (url result);
  let '(width, height, file_size, img_format) := info in
  mret (ImageResult.mk (url result) (source result)
          (Scorer._calculate_quality_score width height file_size img_format)
          width height file_size img_format (error result)).

(** [for result in candidates: ...] *)
Fixpoint score_candidates (candidates : list ImageResult.t)
    : io (list ImageResult.t) :=
  match candidates with
  | [] => mret []
  | result :: rest =>
      scored ← score_candidate result;
      others ← score_candidates rest;
      mret (scored :: others)
  end.

(** [candidates.sort(key=lambda x: x.quality_score, reverse=True)].
    CPython's sort is stable and [reverse=True] keeps the original order of
    elements with equal keys, so the outcome is the one list that is
    ordered by descending key and keeps equal keys in input order; it is
    computed here by insertion from the right.  Keys are compared with [<]
    only, as [list.sort] does. *)
Fixpoint insert_desc (x : ImageResult.t) (l : list ImageResult.t)
    : list ImageResult.t :=
  match l with
  | [] => [x]
  | y :: r =>
      if PrimFloat.ltb (quality_score x) (quality_score y)
      then y :: insert_desc x r
      else x :: y :: r
  end.
Definition sort_by_quality_desc (l : list ImageResult.t)
    : list ImageResult.t :=
  foldr insert_desc [] l.

(** [img.format.lower() if img.format else 'jpg'], when [Image.open] and
    [img.verify()] both return. *)
Definition verified_format (opened : string + pil_image) : option string :=
  match opened with
  | inl _ => None
  | inr img =>
      if img_verify img then
        Some match img_format img with
             | Some f => if String.eqb f "" then "jpg" else Py.lower f
             | None => "jpg"
             end
      else None
  end.

(** The target path of a download. *)
Definition target_path (self : self_t) (product_name : string)
    (product_id : option string) (timestamp : Z) (img_format : string)
    : string :=
  let clean_name :=
    Py.spaces_to_underscores (Py.lower (Py.strip_non_alnum product_name)) in
  let filename :=
    match product_id with
    | Some id =>
        if String.eqb id ""
        then clean_name ++ "_" ++ Py.str_of_int timestamp ++ "." ++ img_format
        else clean_name ++ "_" ++ id ++ "." ++ img_format
    | None => clean_name ++ "_" ++ Py.str_of_int timestamp ++ "." ++ img_format
    end in
  Py.os_path_join (output_dir self) filename.

(** The body of [for attempt in range(max_retries)] in [download_image],
    with [remaining] turns left including this one. *)
Fixpoint download_loop (self : self_t) (url product_name : string)
    (product_id : option string) (max_retries : Z)
    (attempt : Z) (remaining : nat) : io (option string) :=
  match remaining with
  | O => mret None
  | S remaining' =>
      (* [if attempt < max_retries - 1: time.sleep(secs); continue]
         [return None] *)
      let retry (secs : Z) : io (option string) :=
        if attempt <? max_retries - 1 then
          _ ← trigger (time_sleep secs);
          download_loop self url product_name product_id max_retries
            (attempt + 1) remaining'
        else mret None in
      response ← trigger (session_get url);
      match response with
      | inl _ => retry 2
      | inr content =>
          opened ← trigger (image_open content);
          match verified_format opened with
          | None => retry 1
          | Some img_format =>
              timestamp ← trigger time_ms;
              let filepath :=
                target_path self product_name product_id timestamp img_format in
              written ← trigger (file_write filepath content);
              match written with
              | Some _ => retry 2
              | None =>
                  measured ← trigger (os_getsize filepath);
                  match measured with
                  | inl _ => retry 2
                  | inr n =>
                      if n <? 1024 then
                        removed ← trigger (os_remove filepath);
                        match removed with
                        | Some _ => retry 2
                        | None => retry 1
                        end
                      else mret (Some filepath)
                  end
              end
          end
      end
  end.

(** [download_image] *)
Definition download_image (self : self_t) (url product_name : string)
    (product_id : option string) (max_retries : Z) : io (option string) :=
  download_loop self url product_name product_id max_retries 0
    (Z.to_nat max_retries).

(** The three searches of [scrape_product_images] and the lists built from
    them: [(all_results, sources_searched)]. *)
Definition search_all (product_name brand_name : string)
    : io (list ImageResult.t * list string) :=
  let all_results : list ImageResult.t := [] in
  let sources_searched : list string := [] in
  (* Search Google Images (Source 1) *)
  google_results ← search_google_images product_name brand_name;
  let valid_google := List.filter is_valid google_results in
  let all_results := (all_results ++ valid_google)%list in
  let sources_searched := (sources_searched ++ ["google"])%list in
  (* Search Bing Images (Source 2) *)
  bing_results ← search_bing_images product_name brand_name;
  let valid_bing := List.filter is_valid bing_results in
  let all_results := (all_results ++ valid_bing)%list in
  let sources_searched := (sources_searched ++ ["bing"])%list in
  (* Search E-commerce sites (Source 3 - bonus) *)
  ecommerce_results ← search_ecommerce product_name brand_name;
  let valid_ecommerce :=
    List.filter is_valid ecommerce_results in
  let all_results := (all_results ++ valid_ecommerce)%list in
  let sources_searched :=
    match valid_ecommerce with
    | [] => sources_searched
    | _ :: _ => (sources_searched ++ ["ecommerce"])%list
    end in
  mret (all_results, sources_searched).

(** [scrape_product_images] *)
Definition scrape_product_images (self : self_t)
    (product_name brand_name : string) (download : bool)
    (product_id : option string) : io ScrapeResult.t :=
  searched ← search_all product_name brand_name;
  let '(all_results, sources_searched) := searched in
  (* Verify we searched at least MIN_SOURCES *)
  if Z.of_nat (length sources_searched) <? MIN_SOURCES then
    mret (ScrapeResult.mk false product_name brand_name [] None None
            sources_searched
            (Some ("Failed to search minimum " ++ Py.str_of_int MIN_SOURCES
                   ++ " sources")))
  else
    (* Remove duplicates by URL *)
    let unique_results := unique_by_url all_results in
    match unique_results with
    | [] =>
        mret (ScrapeResult.mk false product_name brand_name [] None None
                sources_searched (Some "No images found from any source"))
    | _ :: _ =>
        (* Calculate quality scores for top candidates *)
        let candidates := take 15 unique_results in
        candidates ← score_candidates candidates;
        (* Sort by quality score *)
        let candidates := sort_by_quality_desc candidates in
        (* Select best image *)
        let best_image := head candidates in
        (* Download if requested *)
        local_path ←
          match best_image with
          | Some best =>
              if download && negb (String.eqb (url best) "") then
                download_image self (url best) product_name product_id 3
              else mret None
          | None => mret None
          end;
        mret (ScrapeResult.mk true product_name brand_name candidates
                best_image local_path sources_searched None)
    end.

End Scraper.

(** ** The downloader's search: [class ProductImageDownloader]

    [print] calls are left out. *)

Module Downloader.

(** A search result: the dict [{'url': ..., 'source': ..., 'confidence':
    ...}]. *)
Record result := mk {
  url : string;
  source : string;
  confidence : float
}.

(** [self.company_domains], in insertion order. *)
Definition company_domains : list (string * string) :=
  [ ("unilever", "unilever.com"); ("hindustan unilever", "hul.co.in");
    ("hul", "hul.co.in"); ("surf", "surf.co.in"); ("dove", "dove.com");
    ("lifebuoy", "lifebuoy.co.in"); ("ponds", "ponds.com");
    ("brooke bond", "brookebond.co.in"); ("rin", "rin.co.in");
    ("wheel", "wheel.co.in"); ("nestle", "nestle.com"); ("maggi", "maggi.in");
    ("nescafe", "nescafe.com"); ("kitkat", "kitkat.com");
    ("coca cola", "coca-cola.com"); ("pepsi", "pepsi.com");
    ("britannia", "britannia.co.in"); ("parle", "parle.com") ].

(** [_is_valid_image_url] *)
Definition _is_valid_image_url (url : string) : bool :=
  if String.eqb url "" then false
  else
    let image_extensions := [".jpg"; ".jpeg"; ".png"; ".webp"; ".gif"; ".bmp"] in
    let url_lower := Py.lower url in
    let has_extension :=
      existsb (fun ext => Py.contains ext url_lower) image_extensions in
    let looks_like_image :=
      Py.contains "image" url_lower || Py.contains "photo" url_lower
      || Py.contains "picture" url_lower || Py.contains "/img/" url_lower
      || Py.contains "/images/" url_lower
      || Py.contains "thumbnail" url_lower in
    has_extension || looks_like_image.

(** The [for brand, domain in self.company_domains.items()] loop: the
    domain of the first brand found in [search_term]. *)
Definition find_company_domain (search_term : string) : option string :=
  snd <$> List.find (fun entry => Py.contains (fst entry) search_term)
            company_domains.

(** The generic placeholder images. *)
Definition generic_images (product_name : string) (h : Z) : list string :=
  [ "https://via.placeholder.com/400x400/CCCCCC/666666?text="
    ++ Py.quote product_name;
    "https://dummyimage.com/400x400/f0f0f0/333&text=" ++ Py.quote product_name;
    "https://picsum.photos/400/400?random="
    ++ Py.str_of_int (Z.abs h mod 10000) ].

(** The common product image patterns tried on a company domain. *)
Definition patterns (company_domain product_name brand_name : string)
    : list string :=
  let clean_product :=
    Py.spaces_to_hyphens (Py.lower (Py.strip_non_alnum product_name)) in
  let clean_brand :=
    Py.spaces_to_hyphens (Py.lower (Py.strip_non_alnum brand_name)) in
  [ "https://" ++ company_domain ++ "/images/products/" ++ clean_product
    ++ ".jpg";
    "https://" ++ company_domain ++ "/assets/images/" ++ clean_brand ++ "-"
    ++ clean_product ++ ".jpg";
    "https://" ++ company_domain ++ "/media/catalog/product/" ++ clean_product
    ++ ".jpg";
    "https://" ++ company_domain ++ "/wp-content/uploads/" ++ clean_product
    ++ ".jpg";
    "https://cdn." ++ company_domain ++ "/products/" ++ clean_product
    ++ ".jpg" ].

(** An [img] source made absolute. *)
Definition absolute (company_domain src : string) : string :=
  if String.prefix "http" src then src
  else "https://" ++ company_domain
       ++ (if String.prefix "/" src then "" else "/") ++ src.

(** The body of the [try] block of [search_company_websites] down to
    [unique_urls].  None of its modelled steps raises past the inner
    [try], so the outer [except] clause has no counterpart here. *)
Definition company_attempt (product_name brand_name : string)
    : io (list string) :=
  let search_term :=
    Py.lower (if String.eqb brand_name "" then product_name else brand_name) in
  let company_domain := find_company_domain search_term in
  image_urls ←
    match company_domain with
    | Some company_domain =>
        let search_query := Py.strip (product_name ++ " " ++ brand_name) in
        let search_url :=
          "https://" ++ company_domain ++ "/search?q="
          ++ Py.quote search_query in
        page ← trigger (company_page search_url);
        let image_urls :=
          match page with
          | Some srcs =>
              absolute company_domain <$> List.filter _is_valid_image_url srcs
          | None => []
          end in
        (* If search didn't work, try common product image patterns *)
        match image_urls with
        | [] => mret (patterns company_domain product_name brand_name)
        | _ :: _ => mret image_urls
        end
    | None => mret []
    end;
  (* Add generic placeholder images as fallback *)
  image_urls ←
    match image_urls with
    | [] =>
        h ← trigger (py_hash product_name);
        mret (generic_images product_name h)
    | _ :: _ => mret image_urls
    end;
  (* Remove duplicates and return first 5 *)
  mret (take 5 (Py.dict_fromkeys image_urls)).

(** [for attempt in range(max_retries)] of [search_company_websites]. *)
Fixpoint company_loop (product_name brand_name : string) (max_retries : Z)
    (attempt : Z) (remaining : nat) : io (list string) :=
  match remaining with
  | O => mret []
  | S remaining' =>
      unique_urls ← company_attempt product_name brand_name;
      match unique_urls with
      | _ :: _ => mret unique_urls
      | [] =>
          if attempt <? max_retries - 1 then
            _ ← trigger (time_sleep (1 * (attempt + 1)));
            company_loop product_name brand_name max_retries (attempt + 1)
              remaining'
          else
            company_loop product_name brand_name max_retries (attempt + 1)
              remaining'
      end
  end.

(** [search_company_websites] *)
Definition search_company_websites (product_name brand_name : string)
    (max_retries : Z) : io (list string) :=
  company_loop product_name brand_name max_retries 0 (Z.to_nat max_retries).

(** The "remove duplicates while preserving order" loop. *)
Fixpoint unique_from (seen_urls : gset string) (all_results : list result)
    : list result :=
  match all_results with
  | [] => []
  | r :: rest =>
      if decide (url r ∈ seen_urls) then unique_from seen_urls rest
      else r :: unique_from ({[url r]} ∪ seen_urls) rest
  end.

(** [unique_results.sort(key=lambda x: x['confidence'], reverse=True)], a
    stable sort, by insertion from the right. *)
Fixpoint insert_desc (x : result) (l : list result) : list result :=
  match l with
  | [] => [x]
  | y :: r =>
      if PrimFloat.ltb (confidence x) (confidence y)
      then y :: insert_desc x r
      else x :: y :: r
  end.

(** [search_product_images] *)
Definition search_product_images (product_name brand_name : string)
    : io (list result) :=
  let all_results : list result := [] in
  (* 1. Search Google Images *)
  google_urls ← trigger (url_search "google" product_name brand_name);
  let all_results :=
    (all_results ++ ((fun u => mk u "google" 0.9%float) <$> google_urls))%list in
  (* 2. Search Bing Images *)
  bing_urls ← trigger (url_search "bing" product_name brand_name);
  let all_results :=
    (all_results ++ ((fun u => mk u "bing" 0.8%float) <$> bing_urls))%list in
  (* 3. Search Wikipedia *)
  wiki_urls ← trigger (url_search "wikipedia" product_name brand_name);
  let all_results :=
    (all_results ++ ((fun u => mk u "wikipedia" 0.7%float) <$> wiki_urls))%list in
  (* 4. Search Company Websites *)
  company_urls ← search_company_websites product_name brand_name 3;
  let all_results :=
    (all_results ++ ((fun u => mk u "company" 0.6%float) <$> company_urls))%list in
  let unique_results := unique_from ∅ all_results in
  let unique_results := foldr insert_desc [] unique_results in
  mret (take 10 unique_results).

(** [get_fallback_image_url] *)
Definition get_fallback_image_url (product_name : string) : io string :=
  h ← trigger (py_hash product_name);
  let seed := Z.abs h mod 10000 in
  let fallback_services :=
    [ "https://picsum.photos/400/400?random=" ++ Py.str_of_int seed;
      "https://via.placeholder.com/400x400/CCCCCC/666666?text="
      ++ Py.quote (Py.slice_to 20 product_name);
      "https://dummyimage.com/400x400/f0f0f0/333&text="
      ++ Py.quote (Py.slice_to 15 product_name);
      "https://source.unsplash.com/400x400/?product,"
      ++ Py.quote (Py.slice_to 10 product_name) ] in
  mret (nth (Z.to_nat (seed mod 4)) fallback_services "").

(** The [results] list [main] goes on with: the search results, or the
    single labelled fallback entry when the search found nothing. *)
Definition main_results (product_name brand_name : string)
    : io (list result) :=
  results ← search_product_images product_name brand_name;
  match results with
  | [] =>
      fallback_url ← get_fallback_image_url product_name;
      mret [mk fallback_url "fallback" 0.1%float]
  | _ :: _ => mret results
  end.

End Downloader.

(** ** What the searches of a world amount to

    Names for the lists [scrape_product_images] builds from the three
    searches, as functions of the world that answers them. *)

Module Searches.

Import Scraper.

Definition source_name (e : engine) : string :=
  match e with
  | Google => "google"
  | Bing => "bing"
  | Ecommerce => "ecommerce"
  end.

Definition source_limit (e : engine) : nat :=
  match e with
  | Google => 10%nat
  | Bing => 8%nat
  | Ecommerce => 5%nat
  end.

(** [valid_google], [valid_bing], [valid_ecommerce]. *)
Definition valid_results (w : world) (e : engine)
    (product_name brand_name : string) : list ImageResult.t :=
  List.filter is_valid
    (search_results (source_name e) (source_limit e)
       (pages w e product_name brand_name)).

(** [all_results] after the three [extend] calls. *)
Definition all_results (w : world) (product_name brand_name : string)
    : list ImageResult.t :=
  (valid_results w Google product_name brand_name
   ++ valid_results w Bing product_name brand_name)
  ++ valid_results w Ecommerce product_name brand_name.

(** The engines that returned at least one valid result. *)
Definition succeeded (w : world) (product_name brand_name : string)
    : list engine :=
  List.filter
    (fun e => match valid_results w e product_name brand_name with
              | [] => false
              | _ :: _ => true
              end)
    [Google; Bing; Ecommerce].

(** The download step of [scrape_product_images], given [best_image]. *)
Definition download_best (self : self_t) (product_name : string)
    (product_id : option string) (download : bool)
    (best_image : option ImageResult.t) : io (option string) :=
  match best_image with
  | Some best =>
      if download && negb (String.eqb (ImageResult.url best) "") then
        download_image self (ImageResult.url best) product_name product_id 3
      else mret None
  | None => mret None
  end.

End Searches.

(** ** The finitely many values of the score

    Each of the four steps of [_calculate_quality_score] either adds one of
    a few constants or leaves the running sum alone; [score_of_bands] is the
    function with the choice made explicit, used to enumerate the values
    the score can take. *)

Module Bands.

Definition add_band (score : float) (band : option float) : float :=
  match band with
  | Some x => (score + x)%float
  | None => score
  end.

Definition score_of_bands (r a z : option float) (f : float) : float :=
  Py.fmin (add_band (add_band (add_band 0%float r) a) z + f)%float 1%float.

Definition resolution_band (width height : Z) : option float :=
  if (400 <=? Z.min width height) && (Z.max width height <=? 1200)
  then Some 0.4%float
  else if (200 <=? Z.min width height) && (Z.max width height <=? 2000)
  then Some 0.3%float
  else if 100 <=? Z.min width height then Some 0.15%float
  else None.

Definition aspect_band (width height : Z) : option float :=
  if (0 <? width) && (0 <? height) then
    if Scorer.aspect_ratio_le (Z.max width height) (Z.min width height) 3 2
    then Some 0.2%float
    else if Scorer.aspect_ratio_le (Z.max width height) (Z.min width height) 2 1
    then Some 0.1%float
    else None
  else None.

Definition size_band (file_size : Z) : option float :=
  if 0 <? file_size then
    if (10000 <=? file_size) && (file_size <=? 500000) then Some 0.2%float
    else if (5000 <=? file_size) && (file_size <=? 1000000) then Some 0.1%float
    else None
  else None.

Definition format_band (format : string) : float :=
  default 0.05%float (Scorer.format_scores !! Py.lower format).

Definition resolution_options : list (option float) :=
  [Some 0.4%float; Some 0.3%float; Some 0.15%float; None].
Definition aspect_options : list (option float) :=
  [Some 0.2%float; Some 0.1%float; None].
Definition size_options : list (option float) :=
  [Some 0.2%float; Some 0.1%float; None].
Definition format_options : list float :=
  [0.2%float; 0.18%float; 0.15%float; 0.05%float].

(** Every value [_calculate_quality_score] can return (with repetitions). *)
Definition score_values : list float :=
  r ← resolution_options; a ← aspect_options; z ← size_options;
  f ← format_options; [score_of_bands r a z f].

(** The same values without repetition. *)
Fixpoint dedup_floats (l : list float) : list float :=
  match l with
  | [] => []
  | x :: r =>
      if existsb (PrimFloat.eqb x) r then dedup_floats r
      else x :: dedup_floats r
  end.

Definition distinct_values : list float :=
  Eval vm_compute in dedup_floats score_values.

(** Checks, over all values of the score, that [<] is asymmetric and that
    "not below" is transitive. *)
Definition ltb_asym_check : bool :=
  forallb (fun a =>
    forallb (fun b =>
      implb (PrimFloat.ltb a b) (negb (PrimFloat.ltb b a))) distinct_values)
    distinct_values.

Definition ltb_negtrans_check : bool :=
  forallb (fun a =>
    forallb (fun b =>
      forallb (fun c =>
        implb (negb (PrimFloat.ltb a b) && negb (PrimFloat.ltb b c))
          (negb (PrimFloat.ltb a c))) distinct_values) distinct_values)
    distinct_values.

End Bands.

(** ** Predicates used in the statements *)

Module Predicates.

Local Open Scope list_scope.


(** A result carries the score of its own measured metadata. *)
Definition is_scored (r : ImageResult.t) : Prop :=
  ImageResult.quality_score r
  = Scorer._calculate_quality_score (ImageResult.width r) (ImageResult.height r)
      (ImageResult.file_size r) (ImageResult.format r).

(** Descending order: nothing is strictly below something after it. *)
Fixpoint descending (l : list ImageResult.t) : Prop :=
  match l with
  | [] => True
  | y :: r =>
      Forall (fun z => PrimFloat.ltb (ImageResult.quality_score y)
                         (ImageResult.quality_score z) = false) r
      /\ descending r
  end.

(** What a finished download may have done to the files: a path is
    untouched, or free, or holds at least 1024 bytes. *)
Definition fs_safe (m m' : gmap string bytes) : Prop :=
  forall p : string,
    m' !! p = m !! p \/ m' !! p = None
    \/ exists content, m' !! p = Some content
                       /\ 1024 <= Z.of_nat (length content).

(** What one call of the loop guarantees, from world [w] to the final
    world: only [url] is requested, at most [bound] times; files stay safe;
    a returned path holds at least 1024 bytes. *)
Definition download_post (url : string) (bound : nat) (w : world)
    (out : option string * world) : Prop :=
  (exists k : nat, (k <= bound)%nat
     /\ requests out.2 = requests w ++ replicate k url)
  /\ fs_safe (fs w) (fs out.2)
  /\ (forall p, out.1 = Some p ->
        exists content, fs out.2 !! p = Some content
                        /\ 1024 <= Z.of_nat (length content)).

End Predicates.

(** ** Concrete worlds *)

Module Examples.

Import Scraper.

Definition scraper : self_t := {| output_dir := "scraped_images" |}.

Definition body (b : Byte.byte) (n : nat) : bytes := repeat b n.

(** A decoder that tells four kinds of body apart by their first byte. *)
Definition decode (content : bytes) : option pil_image :=
  match content with
  | Byte.x41 :: _ =>
      Some {| img_size := (800, 800); img_format := Some "JPEG";
              img_verify := true |}
  | Byte.x42 :: _ =>
      Some {| img_size := (600, 600); img_format := Some "PNG";
              img_verify := true |}
  | Byte.x43 :: _ =>
      Some {| img_size := (150, 150); img_format := Some "GIF";
              img_verify := true |}
  | Byte.x44 :: _ =>
      Some {| img_size := (1, 1); img_format := Some "PNG";
              img_verify := true |}
  | _ => None
  end.

Definition url_a : string := "https://img.example/a.jpg".
Definition url_b : string := "https://img.example/b.png".
Definition url_c : string := "https://img.example/c.gif".
Definition url_dot : string := "https://img.example/dot.png".

Definition served (url : string) : option bytes :=
  if String.eqb url url_a then Some (body Byte.x41 2000)
  else if String.eqb url url_b then Some (body Byte.x42 2000)
  else if String.eqb url url_c then Some (body Byte.x43 2000)
  else if String.eqb url url_dot then Some (body Byte.x44 10)
  else None.

(** Only Google answers; Bing and the marketplace search raise. *)
Definition world_google_only : world := {|
  net := fun _ url => served url;
  pages := fun e _ _ =>
    match e with
    | Google => inr [url_a]
    | Bing => inl "timed out"
    | Ecommerce => inl "timed out"
    end;
  pil := decode;
  disk_ok := fun _ => true;
  url_lists := fun _ _ _ => [];
  company_pages := fun _ => None;
  str_hash := fun _ => 0;
  clock := 1700000000000;
  requests := [];
  fs := ∅
|}.

(** Three candidates from two engines.  The first three requests (the
    scoring pass) get the images; after that [url_a] and [url_b] serve an
    HTML page, and only [url_c] still serves its image. *)
Definition world_stale : world := {|
  net := fun n url =>
    if (Nat.ltb n 3 || String.eqb url url_c)%bool then served url
    else Some (body Byte.x3c 300);
  pages := fun e _ _ =>
    match e with
    | Google => inr [url_a; url_b]
    | Bing => inr [url_b; url_c]
    | Ecommerce => inr []
    end;
  pil := decode;
  disk_ok := fun _ => true;
  url_lists := fun _ _ _ => [];
  company_pages := fun _ => None;
  str_hash := fun _ => 0;
  clock := 1700000000000;
  requests := [];
  fs := ∅
|}.

(** Nothing can be fetched. *)
Definition world_offline : world := {|
  net := fun _ _ => None;
  pages := fun _ _ _ => inr [];
  pil := decode;
  disk_ok := fun _ => true;
  url_lists := fun _ _ _ => [];
  company_pages := fun _ => None;
  str_hash := fun _ => 0;
  clock := 1700000000000;
  requests := [];
  fs := ∅
|}.

(** [url_dot] serves a valid 10-byte image. *)
Definition world_tiny : world := {|
  net := fun _ url => served url;
  pages := fun _ _ _ => inr [];
  pil := decode;
  disk_ok := fun _ => true;
  url_lists := fun _ _ _ => [];
  company_pages := fun _ => None;
  str_hash := fun _ => 0;
  clock := 1700000000000;
  requests := [];
  fs := ∅
|}.

(** An unbranded product: Google finds one image, Bing and Wikipedia
    nothing, and no company domain is known for the brand. *)
Definition url_shop : string :=
  "https://cdn.shop.example/images/bath-soap.jpg".
Definition world_unbranded : world := {|
  net := fun _ _ => None;
  pages := fun _ _ _ => inr [];
  pil := decode;
  disk_ok := fun _ => true;
  url_lists := fun source _ _ =>
    if String.eqb source "google" then [url_shop] else [];
  company_pages := fun _ => None;
  str_hash := fun _ => 4611686018427356789;
  clock := 1700000000000;
  requests := [];
  fs := ∅
|}.

(** Three scored candidates in discovery order; the first and the third
    tie. *)
Definition scored_a : ImageResult.t :=
  ImageResult.mk url_c "google"
    (Scorer._calculate_quality_score 150 150 2000 "gif")
    150 150 2000 "gif" None.
Definition scored_b : ImageResult.t :=
  ImageResult.mk url_a "google"
    (Scorer._calculate_quality_score 800 800 2000 "jpeg")
    800 800 2000 "jpeg" None.
Definition scored_c : ImageResult.t :=
  ImageResult.mk url_dot "bing"
    (Scorer._calculate_quality_score 150 150 2000 "gif")
    150 150 2000 "gif" None.

End Examples.

(** ** More of [class ProductImageScraper] *)

Module ScraperChecks.

(** [_is_valid_image_url] of the scraper. *)
Definition image_extensions : list string :=
  [".jpg"; ".jpeg"; ".png"; ".webp"; ".gif"; ".bmp"].
Definition image_patterns : list string :=
  ["image"; "photo"; "picture"; "/img/"; "/images/"; "thumbnail"; "product"].
Definition exclude_patterns : list string :=
  ["logo"; "icon"; "sprite"; "button"; "banner"; "ad"; "tracking"].

Definition _is_valid_image_url (url : string) : bool :=
  if String.eqb url "" then false
  else
    let url_lower := Py.lower url in
    (* Check for image extensions *)
    let has_extension :=
      existsb (fun ext => Py.contains ext url_lower) image_extensions in
    (* Check for image-related URL patterns *)
    let has_pattern :=
      existsb (fun pattern => Py.contains pattern url_lower) image_patterns in
    (* Exclude common non-image patterns *)
    let is_excluded :=
      existsb (fun pattern => Py.contains pattern url_lower) exclude_patterns in
    (has_extension || has_pattern) && negb is_excluded.

(** The dict [validate_image] returns beside [True]. *)
Record image_info := {
  info_width : Z;
  info_height : Z;
  info_file_size : Z;
  info_format : option string
}.

(** [validate_image].  It only reads: the file table for
    [os.path.exists], [os.path.getsize] and the bytes [Image.open(filepath)]
    decodes.  The second component is the dict: [inl msg] for
    [{'error': msg}]. *)
Definition validate_image (filepath : string) (w : world)
    : bool * (string + image_info) :=
  match fs w !! filepath with
  | None => (false, inl "File does not exist")
  | Some content =>
      let file_size := Z.of_nat (length content) in
      if file_size <? 1024 then (false, inl "File too small")
      else
        match pil w content with
        | None => (false, inl "cannot identify image file")
        | Some img =>
            let '(width, height) := img_size img in
            (true, inr {| info_width := width; info_height := height;
                          info_file_size := file_size;
                          info_format := img_format img |})
        end
  end.

End ScraperChecks.

(** ** Names for parts of the modelled methods *)

Module Parts.

(** [clean_name] in [download_image]. *)
Definition clean_name (product_name : string) : string :=
  Py.spaces_to_underscores (Py.lower (Py.strip_non_alnum product_name)).


(** [image_urls] of [search_company_websites] just before duplicates are
    removed, in a world [w]. *)
Definition company_image_urls (w : world) (product_name brand_name : string)
    : list string :=
  let search_term :=
    Py.lower (if String.eqb brand_name "" then product_name else brand_name) in
  let image_urls :=
    match Downloader.find_company_domain search_term with
    | Some company_domain =>
        let search_query := Py.strip (product_name ++ " " ++ brand_name) in
        let search_url :=
          "https://" ++ company_domain ++ "/search?q="
          ++ Py.quote search_query in
        let image_urls :=
          match company_pages w search_url with
          | Some srcs =>
              Downloader.absolute company_domain
                <$> List.filter Downloader._is_valid_image_url srcs
          | None => []
          end in
        match image_urls with
        | [] => Downloader.patterns company_domain product_name brand_name
        | _ :: _ => image_urls
        end
    | None => []
    end in
  match image_urls with
  | [] => Downloader.generic_images product_name (str_hash w product_name)
  | _ :: _ => image_urls
  end.




End Parts.

(** ** More concrete worlds *)

Module MoreExamples.

(** [Examples.world_tiny] with a good file already stored where the
    download of "Dove Soap" with id [p1] goes. *)
Definition stored_path : string := "scraped_images/dove_soap_p1.png".
Definition world_tiny_with_file : world :=
  set_fs Examples.world_tiny
    (<[stored_path := Examples.body Byte.x44 2000]> ∅).

End MoreExamples.

(** ** The downloader's file handling

    [ProductImageDownloader.download_image] and the download part of
    [main].  They read two things the searches do not: whether a path
    exists, answered by [fs], and the [content-type] header of a response,
    answered by [content_type n url] for the [n]-th image request of the
    run.  Both functions pass the world along explicitly. *)

Module DownloaderFiles.

(** [s.endswith(ext)] *)
Definition endswith (s ext : string) : bool :=
  let n := String.length s in
  let m := String.length ext in
  (Nat.leb m n && String.eqb (String.substring (n - m) m s) ext)%bool.

(** [if not any(filename.lower().endswith(ext) for ext in [...]):
       filename += '.jpg'] *)
Definition with_extension (filename : string) : string :=
  if existsb (endswith (Py.lower filename)) [".jpg"; ".jpeg"; ".png"; ".webp"]
  then filename
  else filename ++ ".jpg".

(** [os.path.exists(path)] *)
Definition os_path_exists (w : world) (path : string) : bool :=
  match fs w !! path with
  | Some _ => true
  | None => false
  end.

Section Headers.

Variable content_type : nat -> string -> string.

(** The body of [for attempt in range(max_retries)] in [download_image],
    with [remaining] turns left including this one. *)
Fixpoint download_loop (output_dir image_url filename : string)
    (max_retries attempt : Z) (remaining : nat) (w : world) : bool * world :=
  match remaining with
  | O => (false, w)
  | S remaining' =>
      (* [if attempt < max_retries - 1: time.sleep(secs); continue]
         [return False] *)
      let retry (secs : Z) (filename : string) (w : world) : bool * world :=
        if attempt <? max_retries - 1 then
          let (_, w) := handle (time_sleep secs) w in
          download_loop output_dir image_url filename max_retries
            (attempt + 1) remaining' w
        else (false, w) in
      let filename := with_extension filename in
      let filepath := Py.os_path_join output_dir filename in
      if os_path_exists w filepath then (true, w)
      else
        let sent := length (requests w) in
        let (response, w) := handle (session_get image_url) w in
        match response with
        | inl _ => retry 2 filename w
        | inr content =>
            if negb (String.prefix "image/" (content_type sent image_url))
            then retry 1 filename w
            else
              let (opened, w) := handle (image_open content) w in
              let verified :=
                match opened with
                | inl _ => false
                | inr img => img_verify img
                end in
              if negb verified then retry 1 filename w
              else
                let (written, w) := handle (file_write filepath content) w in
                match written with
                | Some _ => retry 2 filename w
                | None =>
                    let (measured, w) := handle (os_getsize filepath) w in
                    match measured with
                    | inl _ => retry 2 filename w
                    | inr n =>
                        if n <? 1024 then
                          let (removed, w) := handle (os_remove filepath) w in
                          match removed with
                          | Some _ => retry 2 filename w
                          | None => retry 1 filename w
                          end
                        else (true, w)
                    end
                end
        end
  end.

(** [download_image] *)
Definition download_image (output_dir image_url filename : string)
    (max_retries : Z) (w : world) : bool * world :=
  download_loop output_dir image_url filename max_retries 0
    (Z.to_nat max_retries) w.




End Headers.

End DownloaderFiles.

(** ** What a download leaves behind *)

Module FileFacts.





End FileFacts.

(* ===================================================================== *)
(** * Properties *)
(* ===================================================================== *)

Import Scorer Predicates.

Local Open Scope list_scope.

(** ** Scoring *)

Example score_800_jpeg :
  _calculate_quality_score 800 800 150000 "jpeg" = 1%float.
Proof. vm_compute. reflexivity. Qed.

Example score_zero :
  _calculate_quality_score 0 0 0 "" = 0.05%float.
Proof. vm_compute. reflexivity. Qed.

Lemma format_scores_get (s : string) :
  default 0.05%float (format_scores !! s) =
  ScorerSpec.contribution ScorerSpec.weight_format
    (ScorerSpec.format_factor
       (if String.eqb s "jpeg" then ScorerSpec.Jpeg
        else if String.eqb s "jpg" then ScorerSpec.Jpeg
        else if String.eqb s "png" then ScorerSpec.Png
        else if String.eqb s "webp" then ScorerSpec.Webp
        else if String.eqb s "gif" then ScorerSpec.Gif
        else ScorerSpec.Unknown)).
Proof.
  destruct (String.eqb_spec s "jpeg") as [->|]; [vm_compute; reflexivity|].
  destruct (String.eqb_spec s "jpg") as [->|]; [vm_compute; reflexivity|].
  destruct (String.eqb_spec s "png") as [->|]; [vm_compute; reflexivity|].
  destruct (String.eqb_spec s "webp") as [->|]; [vm_compute; reflexivity|].
  destruct (String.eqb_spec s "gif") as [->|]; [vm_compute; reflexivity|].
  unfold format_scores. cbn [list_to_map foldr fst snd].
  rewrite !lookup_insert_ne by congruence.
  rewrite lookup_empty. vm_compute. reflexivity.
Qed.

Lemma score_as_bands (width height file_size : Z) (format : string) :
  _calculate_quality_score width height file_size format
  = Bands.score_of_bands (Bands.resolution_band width height)
      (Bands.aspect_band width height) (Bands.size_band file_size)
      (Bands.format_band format).
Proof.
  unfold _calculate_quality_score, Bands.score_of_bands,
    Bands.resolution_band, Bands.aspect_band, Bands.size_band,
    Bands.format_band.
  cbv zeta.
  destruct ((400 <=? Z.min width height) && (Z.max width height <=? 1200));
  destruct ((200 <=? Z.min width height) && (Z.max width height <=? 2000));
  destruct (100 <=? Z.min width height);
  destruct ((0 <? width) && (0 <? height));
  destruct (aspect_ratio_le (Z.max width height) (Z.min width height) 3 2);
  destruct (aspect_ratio_le (Z.max width height) (Z.min width height) 2 1);
  destruct (0 <? file_size);
  destruct ((10000 <=? file_size) && (file_size <=? 500000));
  destruct ((5000 <=? file_size) && (file_size <=? 1000000));
  reflexivity.
Qed.

Lemma format_band_spec (format : string) :
  Bands.format_band format
  = ScorerSpec.contribution ScorerSpec.weight_format
      (ScorerSpec.format_factor (ScorerSpec.classify format)).
Proof. apply format_scores_get. Qed.

Lemma spec_score_as_bands (width height file_size : Z) (format : string) :
  ScorerSpec.score width height file_size format
  = Bands.score_of_bands (Bands.resolution_band width height)
      (Bands.aspect_band width height) (Bands.size_band file_size)
      (Bands.format_band format).
Proof.
  rewrite format_band_spec.
  unfold ScorerSpec.score, ScorerSpec.resolution_factor,
    ScorerSpec.aspect_factor, ScorerSpec.size_factor,
    Bands.resolution_band, Bands.aspect_band, Bands.size_band,
    aspect_ratio_le.
  cbv zeta.
  destruct (ScorerSpec.classify format);
  (destruct ((400 <=? Z.min width height) && (Z.max width height <=? 1200));
   [|destruct ((200 <=? Z.min width height) && (Z.max width height <=? 2000));
     [|destruct (100 <=? Z.min width height)]]);
  (destruct ((0 <? width) && (0 <? height));
   [destruct (Z.max width height * 2 <=? 3 * Z.min width height);
    [|destruct (Z.max width height * 1 <=? 2 * Z.min width height)]|]);
  (destruct (0 <? file_size);
   [destruct ((10000 <=? file_size) && (file_size <=? 500000));
    [|destruct ((5000 <=? file_size) && (file_size <=? 1000000))]|]);
  vm_compute; reflexivity.
Qed.

Lemma resolution_band_in (width height : Z) :
  Bands.resolution_band width height ∈ Bands.resolution_options.
Proof.
  unfold Bands.resolution_band, Bands.resolution_options.
  repeat case_match; set_solver.
Qed.

Lemma aspect_band_in (width height : Z) :
  Bands.aspect_band width height ∈ Bands.aspect_options.
Proof.
  unfold Bands.aspect_band, Bands.aspect_options.
  repeat case_match; set_solver.
Qed.

Lemma size_band_in (file_size : Z) :
  Bands.size_band file_size ∈ Bands.size_options.
Proof.
  unfold Bands.size_band, Bands.size_options.
  repeat case_match; set_solver.
Qed.

Lemma format_band_in (format : string) :
  Bands.format_band format ∈ Bands.format_options.
Proof.
  rewrite format_band_spec. unfold Bands.format_options.
  rewrite !elem_of_cons.
  destruct (ScorerSpec.classify format); vm_compute; intuition reflexivity.
Qed.

Lemma score_in_values (width height file_size : Z) (format : string) :
  _calculate_quality_score width height file_size format ∈ Bands.score_values.
Proof.
  rewrite score_as_bands. unfold Bands.score_values.
  apply list_elem_of_bind.
  exists (Bands.resolution_band width height).
  split; [|apply resolution_band_in].
  apply list_elem_of_bind. exists (Bands.aspect_band width height).
  split; [|apply aspect_band_in].
  apply list_elem_of_bind. exists (Bands.size_band file_size).
  split; [|apply size_band_in].
  apply list_elem_of_bind. exists (Bands.format_band format).
  split; [|apply format_band_in].
  apply list_elem_of_singleton. reflexivity.
Qed.

(** A decidable property checked on every element of [score_values] holds
    of every score. *)
Lemma score_values_forallb (p : float -> bool) :
  forallb p Bands.score_values = true ->
  forall width height file_size format,
    p (_calculate_quality_score width height file_size format) = true.
Proof.
  intros Hall width height file_size format.
  rewrite forallb_forall in Hall. apply Hall.
  apply list_elem_of_In, score_in_values.
Qed.

(** C4. The quality score is a function of (width, height, byte size,
    format) alone and equals the clamped sum of the four weighted
    contributions: the resolution band contributes weight 0.4 times 1
    (shorter side >= 400, longer side <= 1200), times 0.75, times 0.375
    or nothing; the format contributes weight 0.2 times 1 (jpeg), 0.9
    (png), 0.75 (webp), 0.25 (gif) or 0.25 (anything else).  The result
    lies in [0,1], and the score of (800, 800, 150000, "jpeg") is the
    constant 1.0. *)
Theorem quality_score_weighted_bands (width height file_size : Z)
    (format : string) :
  _calculate_quality_score width height file_size format
  = ScorerSpec.score width height file_size format
  /\ PrimFloat.leb 0 (_calculate_quality_score width height file_size format)
     = true
  /\ PrimFloat.leb (_calculate_quality_score width height file_size format) 1
     = true
  /\ _calculate_quality_score 800 800 150000 "jpeg" = 1%float.
Proof.
  split; [|split; [|split]].
  - rewrite score_as_bands, spec_score_as_bands. reflexivity.
  - apply (score_values_forallb (fun v => PrimFloat.leb 0 v)).
    vm_compute. reflexivity.
  - apply (score_values_forallb (fun v => PrimFloat.leb v 1)).
    vm_compute. reflexivity.
  - vm_compute. reflexivity.
Qed.

Lemma resolution_band_ideal (width height : Z) :
  400 <= Z.min width height -> Z.max width height <= 1200 ->
  Bands.resolution_band width height = Some 0.4%float.
Proof.
  intros Hmin Hmax. unfold Bands.resolution_band.
  replace (400 <=? Z.min width height) with true by (symmetry; lia).
  replace (Z.max width height <=? 1200) with true by (symmetry; lia).
  reflexivity.
Qed.

Lemma resolution_band_tiny (width height : Z) :
  Z.min width height < 100 ->
  Bands.resolution_band width height = None.
Proof.
  intros Hmin. unfold Bands.resolution_band.
  replace (400 <=? Z.min width height) with false by (symmetry; lia).
  replace (200 <=? Z.min width height) with false by (symmetry; lia).
  replace (100 <=? Z.min width height) with false by (symmetry; lia).
  reflexivity.
Qed.

(** Leaving the ideal band for a shorter side below 100 lowers the score
    whatever happens to the aspect-ratio contribution: the 0.4 lost
    outweighs the at most 0.2 the aspect ratio can give back. *)
Lemma ideal_band_beats_tiny (w1 h1 w2 h2 file_size : Z) (format : string) :
  400 <= Z.min w1 h1 -> Z.max w1 h1 <= 1200 ->
  Z.min w2 h2 < 100 ->
  PrimFloat.ltb (_calculate_quality_score w2 h2 file_size format)
    (_calculate_quality_score w1 h1 file_size format) = true.
Proof.
  intros Hmin Hmax Htiny.
  rewrite !score_as_bands.
  rewrite (resolution_band_ideal _ _ Hmin Hmax).
  rewrite (resolution_band_tiny _ _ Htiny).
  pose proof (aspect_band_in w1 h1) as Ha1.
  pose proof (aspect_band_in w2 h2) as Ha2.
  pose proof (size_band_in file_size) as Hz.
  pose proof (format_band_in format) as Hf.
  revert Ha1 Ha2 Hz Hf.
  generalize (Bands.aspect_band w1 h1) (Bands.aspect_band w2 h2)
    (Bands.size_band file_size) (Bands.format_band format).
  unfold Bands.aspect_options, Bands.size_options, Bands.format_options.
  intros a1 a2 z f.
  rewrite !elem_of_cons, !elem_of_nil.
  intros [->|[->|[->|[]]]] [->|[->|[->|[]]]] [->|[->|[->|[]]]]
    [->|[->|[->|[->|[]]]]]; vm_compute; reflexivity.
Qed.

(** C7. With byte size, format and the longer:shorter ratio held fixed,
    replacing dimensions inside the ideal band (shorter side >= 400, longer
    side <= 1200) by dimensions whose shorter side is below 100 strictly
    lowers the score. *)
Theorem score_drops_below_ideal_band
    (w1 h1 w2 h2 file_size : Z) (format : string) :
  400 <= Z.min w1 h1 -> Z.max w1 h1 <= 1200 ->
  Z.min w2 h2 < 100 ->
  Z.max w1 h1 * Z.min w2 h2 = Z.max w2 h2 * Z.min w1 h1 ->
  PrimFloat.ltb (_calculate_quality_score w2 h2 file_size format)
    (_calculate_quality_score w1 h1 file_size format) = true.
Proof.
  intros Hmin Hmax Htiny _. apply ideal_band_beats_tiny; assumption.
Qed.

Lemma score_drops_below_ideal_band_witness :
  PrimFloat.ltb (_calculate_quality_score 80 60 150000 "jpeg")
    (_calculate_quality_score 800 600 150000 "jpeg") = true.
Proof.
  apply (score_drops_below_ideal_band 800 600 80 60 150000 "jpeg");
    reflexivity || lia.
Defined.

(** ** Merging: the duplicate-removal loop *)

Import Scraper.

Lemma unique_from_not_seen (seen : gset string) (l : list ImageResult.t) :
  forall r, r ∈ unique_from seen l -> ImageResult.url r ∉ seen.
Proof.
  revert seen. induction l as [|x l IH]; intros seen r Hr; simpl in Hr.
  - inversion Hr.
  - destruct (decide (ImageResult.url x ∈ seen)) as [Hin|Hnin].
    + eauto.
    + apply elem_of_cons in Hr as [->|Hr]; [assumption|].
      apply IH in Hr. set_solver.
Qed.

Lemma unique_from_NoDup (seen : gset string) (l : list ImageResult.t) :
  NoDup (ImageResult.url <$> unique_from seen l).
Proof.
  revert seen. induction l as [|x l IH]; intros seen; simpl.
  - constructor.
  - destruct (decide (ImageResult.url x ∈ seen)) as [Hin|Hnin]; [apply IH|].
    rewrite fmap_cons. constructor; [|apply IH].
    intros (r & Hurl & Hr)%list_elem_of_fmap.
    apply unique_from_not_seen in Hr. set_solver.
Qed.

Lemma unique_from_subset (seen : gset string) (l : list ImageResult.t) :
  forall r, r ∈ unique_from seen l -> r ∈ l.
Proof.
  revert seen. induction l as [|x l IH]; intros seen r Hr; simpl in Hr.
  - inversion Hr.
  - destruct (decide (ImageResult.url x ∈ seen)).
    + right. eauto.
    + apply elem_of_cons in Hr as [->|Hr]; [left|right; eauto].
Qed.

(** The loop over [pre ++ x :: post], when [x] carries a URL not met
    before: the output for [pre], then [x], then what is kept of [post]. *)
Lemma unique_from_first_occurrence (seen : gset string)
    (pre post : list ImageResult.t) (x : ImageResult.t) :
  ImageResult.url x ∉ seen ->
  ImageResult.url x ∉ (ImageResult.url <$> pre) ->
  exists seen',
    unique_from seen (pre ++ x :: post)
    = unique_from seen pre ++ x :: unique_from seen' post
    /\ ImageResult.url x ∈ seen'.
Proof.
  revert seen. induction pre as [|y pre IH]; intros seen Hseen Hpre; simpl.
  - destruct (decide (ImageResult.url x ∈ seen)); [contradiction|].
    eexists. split; [reflexivity|set_solver].
  - rewrite fmap_cons, not_elem_of_cons in Hpre. destruct Hpre as [Hxy Hpre].
    destruct (decide (ImageResult.url y ∈ seen)).
    + apply IH; assumption.
    + assert (ImageResult.url x ∉ {[ImageResult.url y]} ∪ seen) as Hseen'
        by (rewrite elem_of_union, elem_of_singleton; tauto).
      destruct (IH _ Hseen' Hpre) as (seen' & Heq & Hin).
      exists seen'. split; [rewrite Heq; reflexivity|assumption].
Qed.

Lemma unique_by_url_first_occurrence
    (pre post : list ImageResult.t) (x : ImageResult.t) :
  ImageResult.url x ∉ (ImageResult.url <$> pre) ->
  exists rest,
    unique_by_url (pre ++ x :: post) = unique_by_url pre ++ x :: rest
    /\ (ImageResult.url x ∉ (ImageResult.url <$> unique_by_url pre))
    /\ (ImageResult.url x ∉ (ImageResult.url <$> rest)).
Proof.
  intros Hpre. unfold unique_by_url.
  destruct (unique_from_first_occurrence ∅ pre post x) as (seen' & Heq & Hin);
    [set_solver|assumption|].
  exists (unique_from seen' post). split; [assumption|]. split.
  - intros (r & Hurl & Hr)%list_elem_of_fmap.
    apply unique_from_subset in Hr. apply Hpre.
    apply list_elem_of_fmap. eauto.
  - intros (r & Hurl & Hr)%list_elem_of_fmap.
    apply unique_from_not_seen in Hr. congruence.
Qed.

(** ** Ranking: the sort by quality score *)

Lemma insert_desc_split (x : ImageResult.t) (l : list ImageResult.t) :
  exists l1 l2,
    l = l1 ++ l2 /\ insert_desc x l = l1 ++ x :: l2
    /\ Forall (fun y => PrimFloat.ltb (ImageResult.quality_score x)
                          (ImageResult.quality_score y) = true) l1.
Proof.
  induction l as [|y r (l1 & l2 & Hl & Hins & Hall)]; simpl.
  - exists [], []. repeat split. constructor.
  - destruct (PrimFloat.ltb _ _) eqn:Hlt.
    + exists (y :: l1), l2. rewrite Hl at 1. rewrite Hins.
      repeat split. constructor; assumption.
    + exists [], (y :: r). repeat split. constructor.
Qed.

Lemma insert_desc_perm (x : ImageResult.t) (l : list ImageResult.t) :
  insert_desc x l ≡ₚ x :: l.
Proof.
  destruct (insert_desc_split x l) as (l1 & l2 & -> & -> & _).
  symmetry. apply Permutation_middle.
Qed.

Lemma sort_by_quality_desc_perm (l : list ImageResult.t) :
  sort_by_quality_desc l ≡ₚ l.
Proof.
  induction l as [|x l IH]; simpl; [reflexivity|].
  rewrite insert_desc_perm. rewrite IH. reflexivity.
Qed.








(** *** The order on scores *)

Lemma score_values_distinct (v : float) :
  v ∈ Bands.score_values -> In v Bands.distinct_values.
Proof.
  revert v. apply Forall_forall.
  unfold Bands.distinct_values.
  vm_compute.
  repeat (constructor; [repeat (first [left; reflexivity | right])|]).
  constructor.
Qed.

Lemma score_ltb_asym (a b : float) :
  a ∈ Bands.score_values -> b ∈ Bands.score_values ->
  PrimFloat.ltb a b = true -> PrimFloat.ltb b a = false.
Proof.
  intros Ha%score_values_distinct Hb%score_values_distinct Hab.
  assert (Bands.ltb_asym_check = true) as Hcheck by (vm_compute; reflexivity).
  unfold Bands.ltb_asym_check in Hcheck.
  rewrite forallb_forall in Hcheck. specialize (Hcheck a Ha).
  rewrite forallb_forall in Hcheck. specialize (Hcheck b Hb).
  rewrite Hab in Hcheck. simpl in Hcheck.
  apply negb_true_iff. assumption.
Qed.

Lemma score_ltb_negtrans (a b c : float) :
  a ∈ Bands.score_values -> b ∈ Bands.score_values ->
  c ∈ Bands.score_values ->
  PrimFloat.ltb a b = false -> PrimFloat.ltb b c = false ->
  PrimFloat.ltb a c = false.
Proof.
  intros Ha%score_values_distinct Hb%score_values_distinct
    Hc%score_values_distinct Hab Hbc.
  assert (Bands.ltb_negtrans_check = true) as Hcheck
    by (vm_compute; reflexivity).
  unfold Bands.ltb_negtrans_check in Hcheck.
  rewrite forallb_forall in Hcheck. specialize (Hcheck a Ha).
  rewrite forallb_forall in Hcheck. specialize (Hcheck b Hb).
  rewrite forallb_forall in Hcheck. specialize (Hcheck c Hc).
  rewrite Hab, Hbc in Hcheck. simpl in Hcheck.
  apply negb_true_iff. assumption.
Qed.

Lemma is_scored_value (r : ImageResult.t) :
  is_scored r -> ImageResult.quality_score r ∈ Bands.score_values.
Proof. intros ->. apply score_in_values. Qed.

Lemma insert_desc_descending (x : ImageResult.t) (l : list ImageResult.t) :
  is_scored x -> Forall is_scored l ->
  descending l -> descending (insert_desc x l).
Proof.
  intros Hx. induction l as [|y r IH]; intros Hl Hdesc; simpl.
  - split; [constructor|exact I].
  - apply Forall_cons in Hl as [Hy Hr]. destruct Hdesc as [Hyr Hdesc].
    destruct (PrimFloat.ltb (ImageResult.quality_score x)
                (ImageResult.quality_score y)) eqn:Hxy; simpl.
    + split; [|apply IH; assumption].
      rewrite insert_desc_perm. constructor; [|assumption].
      apply score_ltb_asym; auto using is_scored_value.
    + split; [|split; assumption].
      constructor; [assumption|].
      rewrite Forall_forall in Hyr, Hr. apply Forall_forall. intros z Hz.
      apply (score_ltb_negtrans _ (ImageResult.quality_score y));
        auto using is_scored_value.
Qed.

Lemma sort_by_quality_desc_descending (l : list ImageResult.t) :
  Forall is_scored l -> descending (sort_by_quality_desc l).
Proof.
  induction l as [|x l IH]; intros Hl; simpl; [exact I|].
  apply Forall_cons in Hl as [Hx Hl].
  apply insert_desc_descending; [assumption| |apply IH; assumption].
  rewrite sort_by_quality_desc_perm. assumption.
Qed.


(** ** Running programs *)

Lemma run_bind {A B : Type} (m : io A) (f : A -> io B) (w : world) :
  run (m ≫= f) w = run (f (run m w).1) (run m w).2.
Proof.
  unfold mbind, io_mbind.
  revert w. induction m as [a|X e k IH]; intros w; simpl.
  - reflexivity.
  - destruct (handle e w) as [x w']. apply IH.
Qed.

Lemma set_requests_same (w : world) :
  set_requests w (requests w) = w.
Proof. destruct w. reflexivity. Qed.

(** *** The scoring loop *)

Lemma run_score_candidate (result : ImageResult.t) (w : world) :
  let scored := (run (score_candidate result) w).1 in
  ImageResult.url scored = ImageResult.url result
  /\ ImageResult.source scored = ImageResult.source result
  /\ is_scored scored
  /\ (run (score_candidate result) w).2
     = set_requests w (requests w ++ [ImageResult.url result]).
Proof.
  unfold score_candidate, _get_image_info, is_scored. simpl.
  destruct (net w (length (requests w)) (ImageResult.url result)); simpl.
  - destruct (pil w b) as [[[width height] fmt ok]|]; simpl; auto.
  - auto.
Qed.

Lemma run_ret {A : Type} (a : A) (w : world) : run (mret a) w = (a, w).
Proof. reflexivity. Qed.

Lemma run_score_candidates (candidates : list ImageResult.t) (w : world) :
  let scored := (run (score_candidates candidates) w).1 in
  ImageResult.url <$> scored = ImageResult.url <$> candidates
  /\ Forall is_scored scored
  /\ (run (score_candidates candidates) w).2
     = set_requests w (requests w ++ (ImageResult.url <$> candidates)).
Proof.
  revert w. induction candidates as [|result rest IH]; intros w.
  - simpl. rewrite app_nil_r, set_requests_same. auto.
  - cbn [score_candidates]. cbv zeta.
    rewrite !run_bind, run_ret. cbn [fst snd].
    destruct (run_score_candidate result w) as (Hurl & _ & Hscored & Hw).
    destruct (IH (run (score_candidate result) w).2) as (Hurls & Hall & Hw').
    rewrite !fmap_cons, Hurl, Hurls.
    split; [reflexivity|]. split; [constructor; assumption|].
    rewrite Hw', Hw. simpl. rewrite <- app_assoc. reflexivity.
Qed.

Lemma run_trigger_bind {X B : Type} (e : effect X) (f : X -> io B) (w : world) :
  run (trigger e ≫= f) w = run (f (handle e w).1) (handle e w).2.
Proof.
  rewrite run_bind. unfold trigger. simpl.
  destruct (handle e w) as [x w']. reflexivity.
Qed.

(** *** The download loop *)

Lemma fs_safe_refl (m : gmap string bytes) : fs_safe m m.
Proof. intros p. left. reflexivity. Qed.

Lemma fs_safe_trans (m1 m2 m3 : gmap string bytes) :
  fs_safe m1 m2 -> fs_safe m2 m3 -> fs_safe m1 m3.
Proof.
  intros H12 H23 p.
  destruct (H23 p) as [Heq|[Hnone|Hbig]]; [|auto|auto].
  destruct (H12 p) as [Heq'|[Hnone|(content & Hc & Hbig)]].
  - left. exact (eq_trans Heq Heq').
  - right. left. exact (eq_trans Heq Hnone).
  - right. right. exists content. split; [exact (eq_trans Heq Hc)|exact Hbig].
Qed.

Lemma fs_safe_write_remove (m : gmap string bytes) (path : string)
    (content : bytes) :
  fs_safe m (delete path (<[path := content]> m)).
Proof.
  intros p. destruct (decide (p = path)) as [->|Hne].
  - right. left. apply lookup_delete_eq.
  - left. rewrite lookup_delete_ne, lookup_insert_ne by congruence.
    reflexivity.
Qed.

Lemma fs_safe_write_big (m : gmap string bytes) (path : string)
    (content : bytes) :
  1024 <= Z.of_nat (length content) ->
  fs_safe m (<[path := content]> m).
Proof.
  intros Hbig p. destruct (decide (p = path)) as [->|Hne].
  - right. right. exists content. rewrite lookup_insert_eq. auto.
  - left. rewrite lookup_insert_ne by congruence. reflexivity.
Qed.

Lemma download_post_step (url : string) (bound : nat) (w w1 : world)
    (out : option string * world) :
  requests w1 = requests w ++ [url] ->
  fs_safe (fs w) (fs w1) ->
  download_post url bound w1 out ->
  download_post url (S bound) w out.
Proof.
  intros Hreq Hfs ((k & Hk & Hreqs) & Hsafe & Hret).
  split; [|split].
  - exists (S k). split; [lia|].
    rewrite Hreqs, Hreq. rewrite <- app_assoc. reflexivity.
  - eapply fs_safe_trans; eassumption.
  - assumption.
Qed.

Lemma download_post_stop (url : string) (bound : nat) (w : world) :
  download_post url bound w (None, w).
Proof.
  split; [|split].
  - exists 0%nat. split; [lia|]. simpl. rewrite app_nil_r. reflexivity.
  - apply fs_safe_refl.
  - intros p Hp. discriminate.
Qed.

Lemma download_loop_post (self : self_t) (url product_name : string)
    (product_id : option string) (max_retries : Z) (remaining : nat) :
  forall (attempt : Z) (w : world),
    download_post url remaining w
      (run (download_loop self url product_name product_id max_retries
              attempt remaining) w).
Proof.
  induction remaining as [|remaining IH]; intros attempt w.
  - apply download_post_stop.
  - cbn [download_loop].
    (* the retry continuation, from any world reached in this turn *)
    set (retry := fun secs : Z =>
      if attempt <? max_retries - 1
      then trigger (time_sleep secs) ≫= (fun _ : unit =>
             download_loop self url product_name product_id max_retries
               (attempt + 1) remaining)
      else mret None).
    assert (Hretry : forall secs w1,
               download_post url remaining w1 (run (retry secs) w1)).
    { intros secs w1. unfold retry.
      destruct (attempt <? max_retries - 1).
      - rewrite run_trigger_bind. cbn [handle fst snd].
        specialize (IH (attempt + 1)
                      (set_clock w1 (clock w1 + 1000 * secs))).
        exact IH.
      - apply download_post_stop. }
    rewrite run_trigger_bind. cbn [handle fst snd].
    set (w1 := set_requests w (requests w ++ [url])).
    assert (Hstep : forall out w2,
               requests w2 = requests w1 -> fs_safe (fs w) (fs w2) ->
               download_post url remaining w2 out ->
               download_post url (S remaining) w out).
    { intros out w2 Hreq Hsafe Hout.
      apply (download_post_step url remaining w w2); [|assumption..].
      rewrite Hreq. reflexivity. }
    destruct (net w (length (requests w)) url) as [content|].
    + rewrite run_trigger_bind. cbn [handle fst snd].
      destruct (verified_format _) as [img_format|].
      * rewrite run_trigger_bind. cbn [handle fst snd].
        rewrite run_trigger_bind. cbn [handle].
        set (filepath := target_path self product_name product_id
                           (clock w1) img_format).
        destruct (disk_ok w1 filepath); cbn [fst snd].
        -- rewrite run_trigger_bind. cbn [handle fst snd fs set_fs].
           rewrite lookup_insert_eq.
           destruct (Z.of_nat (length content) <? 1024) eqn:Hsmall.
           ++ rewrite run_trigger_bind. cbn [handle fs set_fs].
              rewrite lookup_insert_eq. cbn [fst snd].
              eapply Hstep; [| |apply Hretry]; [reflexivity|].
              change (fs_safe (fs w)
                        (delete filepath (<[filepath := content]> (fs w)))).
              apply fs_safe_write_remove.
           ++ apply Z.ltb_ge in Hsmall.
              apply (Hstep _ (set_fs w1 (<[filepath := content]> (fs w1)))).
              { reflexivity. }
              { change (fs_safe (fs w) (<[filepath := content]> (fs w))).
                apply fs_safe_write_big. assumption. }
              split; [|split].
              ** exists 0%nat. split; [lia|]. simpl.
                 rewrite app_nil_r. reflexivity.
              ** apply fs_safe_refl.
              ** intros p [= <-]. exists content. simpl.
                 rewrite lookup_insert_eq. auto.
        -- apply (Hstep _ w1); [reflexivity|apply fs_safe_refl|apply Hretry].
      * apply (Hstep _ w1); [reflexivity|apply fs_safe_refl|apply Hretry].
    + apply (Hstep _ w1); [reflexivity|apply fs_safe_refl|apply Hretry].
Qed.

(** ** The pipeline, stage by stage *)

Lemma run_search_all (product_name brand_name : string) (w : world) :
  run (search_all product_name brand_name) w
  = ((Searches.all_results w product_name brand_name,
      ["google"; "bing"]
      ++ match Searches.valid_results w Ecommerce product_name brand_name with
         | [] => []
         | _ :: _ => ["ecommerce"]
         end), w).
Proof.
  unfold search_all, Searches.all_results, Searches.valid_results.
  cbn.
  destruct (List.filter is_valid
              (search_results "ecommerce" 5
                 (pages w Ecommerce product_name brand_name)));
    reflexivity.
Qed.

Lemma scrape_product_images_run (self : self_t)
    (product_name brand_name : string) (download : bool)
    (product_id : option string) (w : world) :
  let sources :=
    ["google"; "bing"]
    ++ match Searches.valid_results w Ecommerce product_name brand_name with
       | [] => []
       | _ :: _ => ["ecommerce"]
       end in
  let unique_results :=
    unique_by_url (Searches.all_results w product_name brand_name) in
  run (scrape_product_images self product_name brand_name download
         product_id) w
  = match unique_results with
    | [] =>
        (ScrapeResult.mk false product_name brand_name [] None None sources
           (Some "No images found from any source"), w)
    | _ :: _ =>
        let scoring := run (score_candidates (take 15 unique_results)) w in
        let ranked := sort_by_quality_desc scoring.1 in
        let saving :=
          run (Searches.download_best self product_name product_id download
                 (head ranked)) scoring.2 in
        (ScrapeResult.mk true product_name brand_name ranked (head ranked)
           saving.1 sources None, saving.2)
    end.
Proof.
  cbv zeta. unfold scrape_product_images.
  rewrite run_bind, run_search_all. cbn [fst snd].
  replace (Z.of_nat (length _) <? MIN_SOURCES) with false
    by (destruct (Searches.valid_results w Ecommerce product_name brand_name);
        reflexivity).
  destruct (unique_by_url (Searches.all_results w product_name brand_name))
    as [|first others]; [reflexivity|].
  rewrite run_bind.
  rewrite run_bind. rewrite run_ret. reflexivity.
Qed.

(** ** Sources searched and the minimum-sources check *)

Lemma unique_by_url_nil (l : list ImageResult.t) :
  unique_by_url l = [] <-> l = [].
Proof.
  split; [|intros ->; reflexivity].
  destruct l as [|x l]; [reflexivity|].
  unfold unique_by_url. simpl.
  destruct (decide (ImageResult.url x ∈ (∅ : gset string))) as [Hin|_];
    [|discriminate].
  apply not_elem_of_empty in Hin. contradiction.
Qed.

(** C10. Whatever the searches return, [sources_searched] contains
    ["google"] and ["bing"], so it has at least [MIN_SOURCES] = 2 entries
    and the result never carries the error of the minimum-sources check:
    that branch is unreachable. *)
Theorem min_sources_branch_unreachable (self : self_t)
    (product_name brand_name : string) (download : bool)
    (product_id : option string) (w : world) :
  let result :=
    (run (scrape_product_images self product_name brand_name download
            product_id) w).1 in
  "google" ∈ ScrapeResult.sources_searched result
  /\ "bing" ∈ ScrapeResult.sources_searched result
  /\ MIN_SOURCES <= Z.of_nat (length (ScrapeResult.sources_searched result))
  /\ (ScrapeResult.error result = None
      \/ ScrapeResult.error result
         = Some "No images found from any source"%string)
  /\ ScrapeResult.error result
     <> Some ("Failed to search minimum " ++ Py.str_of_int MIN_SOURCES
              ++ " sources")%string
  /\ ("Failed to search minimum " ++ Py.str_of_int MIN_SOURCES
      ++ " sources")%string
     = "Failed to search minimum 2 sources"%string.
Proof.
  cbv zeta. rewrite scrape_product_images_run. cbv zeta.
  destruct (unique_by_url _);
    destruct (Searches.valid_results w Ecommerce product_name brand_name);
    cbn; unfold MIN_SOURCES;
    (repeat split;
     [set_solver|set_solver|lia|auto|vm_compute; discriminate]).
Qed.

(** C1 (as the code has it). [sources_searched] lists ["google"] and
    ["bing"] whether or not they returned anything, and ["ecommerce"]
    exactly when it returned a valid result.  The call fails exactly when
    no source returned any valid result, with the error "No images found
    from any source"; it succeeds as soon as one source returned one, and
    whenever it succeeds [sources_searched] has at least 2 entries. *)
Theorem sources_searched_and_success (self : self_t)
    (product_name brand_name : string) (download : bool)
    (product_id : option string) (w : world) :
  let result :=
    (run (scrape_product_images self product_name brand_name download
            product_id) w).1 in
  ScrapeResult.sources_searched result
  = ["google"; "bing"]
    ++ match Searches.valid_results w Ecommerce product_name brand_name with
       | [] => []
       | _ :: _ => ["ecommerce"]
       end
  /\ (ScrapeResult.success result = true
      <-> Searches.succeeded w product_name brand_name <> [])
  /\ (ScrapeResult.success result = false ->
      ScrapeResult.error result
      = Some "No images found from any source"%string)
  /\ (ScrapeResult.success result = true ->
      2 <= Z.of_nat (length (ScrapeResult.sources_searched result))).
Proof.
  cbv zeta. rewrite scrape_product_images_run. cbv zeta.
  assert (Hnil : unique_by_url
                   (Searches.all_results w product_name brand_name) = []
                 <-> Searches.succeeded w product_name brand_name = []).
  { rewrite unique_by_url_nil.
    unfold Searches.all_results, Searches.succeeded. simpl.
    destruct (Searches.valid_results w Google product_name brand_name);
      destruct (Searches.valid_results w Bing product_name brand_name);
      destruct (Searches.valid_results w Ecommerce product_name brand_name);
      simpl; split; congruence. }
  destruct (unique_by_url _) as [|first others]; cbn [fst snd];
    cbn [ScrapeResult.sources_searched ScrapeResult.success
         ScrapeResult.error].
  - split; [reflexivity|]. split; [|split; [reflexivity|discriminate]].
    split; [discriminate|]. intros Hne. exfalso. apply Hne, Hnil. reflexivity.
  - split; [reflexivity|]. split; [|split; [discriminate|]].
    + split; [|reflexivity]. intros _ Hs. apply Hnil in Hs. discriminate.
    + intros _.
      destruct (Searches.valid_results w Ecommerce product_name brand_name);
        simpl; lia.
Qed.

(** C1 fails as stated: with Google alone returning a result (one source
    of three), the call succeeds, reports two sources searched and no
    error. *)
Lemma single_source_still_succeeds :
  let result :=
    (run (scrape_product_images Examples.scraper "Dove Soap" "Dove" false
            None) Examples.world_google_only).1 in
  Searches.succeeded Examples.world_google_only "Dove Soap" "Dove" = [Google]
  /\ ScrapeResult.success result = true
  /\ ScrapeResult.error result = None
  /\ ScrapeResult.sources_searched result = ["google"; "bing"]
  /\ length (ScrapeResult.sources_searched result) <> 1%nat.
Proof. vm_compute. repeat split; discriminate. Qed.

(** ** Download of the selected image *)

Lemma run_download_best (self : self_t) (product_name : string)
    (product_id : option string) (download : bool)
    (best_image : option ImageResult.t) (w : world) :
  let out :=
    run (Searches.download_best self product_name product_id download
           best_image) w in
  (exists k : nat, (k <= 3)%nat
     /\ requests out.2
        = requests w
          ++ replicate k (default ""%string (ImageResult.url <$> best_image)))
  /\ fs_safe (fs w) (fs out.2)
  /\ (forall p, out.1 = Some p ->
        download = true
        /\ exists content, fs out.2 !! p = Some content
                           /\ 1024 <= Z.of_nat (length content)).
Proof.
  cbv zeta. unfold Searches.download_best.
  assert (Hskip : forall url : string,
    (exists k : nat, (k <= 3)%nat
       /\ requests w = requests w ++ replicate k url)
    /\ fs_safe (fs w) (fs w)
    /\ (forall p, @None string = Some p ->
          download = true
          /\ exists content, fs w !! p = Some content
                             /\ 1024 <= Z.of_nat (length content))).
  { intros url. split; [|split].
    - exists 0%nat. split; [lia|]. simpl. rewrite app_nil_r. reflexivity.
    - apply fs_safe_refl.
    - discriminate. }
  destruct best_image as [best|]; [|apply Hskip].
  destruct download; [|apply Hskip].
  destruct (negb (String.eqb (ImageResult.url best) "")); [|apply Hskip].
  cbn [andb fmap option_fmap option_map default].
  destruct (download_loop_post self (ImageResult.url best) product_name
              product_id 3 (Z.to_nat 3) 0 w) as (Hreq & Hfs & Hret).
  unfold download_image. split; [assumption|]. split; [assumption|].
  intros p Hp. split; [reflexivity|]. apply Hret. assumption.
Qed.

(** C2 (as the code has it). With download requested and a successful
    search, the image requests of the whole call are the scoring fetches,
    one per candidate in discovery order, followed by at most 3 fetches of
    the top-ranked candidate's URL and of no other: the downloader never
    moves on to a lower-ranked candidate.  The chosen image is the head of
    the ranking whatever the download did. *)
Theorem download_tries_only_the_best (self : self_t)
    (product_name brand_name : string) (product_id : option string)
    (w : world) :
  let out :=
    run (scrape_product_images self product_name brand_name true
           product_id) w in
  let candidates :=
    take 15 (unique_by_url (Searches.all_results w product_name brand_name)) in
  ScrapeResult.success out.1 = true ->
  exists (best : ImageResult.t) (k : nat),
    head (ScrapeResult.images out.1) = Some best
    /\ ScrapeResult.best_image out.1 = Some best
    /\ (k <= 3)%nat
    /\ requests out.2
       = requests w ++ (ImageResult.url <$> candidates)
         ++ replicate k (ImageResult.url best).
Proof.
  cbv zeta. rewrite scrape_product_images_run. cbv zeta.
  destruct (unique_by_url _) as [|first others] eqn:Hunique;
    [discriminate|]. intros _.
  cbn [fst snd ScrapeResult.images ScrapeResult.best_image].
  set (candidates := take 15 (first :: others)).
  destruct (run_score_candidates candidates w) as (Hurls & _ & Hw).
  set (scoring := run (score_candidates candidates) w) in *.
  cbv zeta in Hurls.
  destruct (sort_by_quality_desc scoring.1) as [|best ranked] eqn:Hranked.
  { (* the ranking has as many entries as the scoring pass *)
    exfalso.
    assert (Hlen : length (sort_by_quality_desc scoring.1)
                   = length (ImageResult.url <$> candidates)).
    { rewrite sort_by_quality_desc_perm, <- Hurls, !length_fmap.
      reflexivity. }
    rewrite Hranked in Hlen. discriminate. }
  destruct (run_download_best self product_name product_id true
              (head (best :: ranked)) scoring.2) as ((k & Hk & Hreq) & _ & _).
  exists best, k. split; [reflexivity|]. split; [reflexivity|].
  split; [assumption|].
  rewrite Hreq, Hw. cbn. rewrite <- app_assoc. reflexivity.
Qed.

Lemma download_tries_only_the_best_witness :
  exists (best : ImageResult.t) (k : nat),
    head (ScrapeResult.images
            (run (scrape_product_images Examples.scraper "Dove Soap" "Dove"
                    true (Some "p1"%string)) Examples.world_stale).1)
    = Some best
    /\ ScrapeResult.best_image
         (run (scrape_product_images Examples.scraper "Dove Soap" "Dove"
                 true (Some "p1"%string)) Examples.world_stale).1
       = Some best
    /\ (k <= 3)%nat
    /\ requests
         (run (scrape_product_images Examples.scraper "Dove Soap" "Dove"
                 true (Some "p1"%string)) Examples.world_stale).2
       = requests Examples.world_stale
         ++ (ImageResult.url <$>
               take 15 (unique_by_url
                          (Searches.all_results Examples.world_stale
                             "Dove Soap" "Dove")))
         ++ replicate k (ImageResult.url best).
Proof.
  apply (download_tries_only_the_best Examples.scraper "Dove Soap" "Dove"
           (Some "p1"%string) Examples.world_stale).
  vm_compute. reflexivity.
Defined.

(** C2 fails as stated: the ranking holds three candidates, the first two
    no longer serve an image when the download starts and the third does,
    yet the call reports the first candidate as chosen, saves nothing, and
    never asks for the third candidate's bytes again. *)
Lemma no_fallback_to_third_candidate :
  let out :=
    run (scrape_product_images Examples.scraper "Dove Soap" "Dove" true
           (Some "p1"%string)) Examples.world_stale in
  let at_download :=
    set_requests Examples.world_stale
      [Examples.url_a; Examples.url_b; Examples.url_c] in
  let try url :=
    (run (download_image Examples.scraper url "Dove Soap"
            (Some "p1"%string) 3) at_download).1 in
  ImageResult.url <$> ScrapeResult.images out.1
  = [Examples.url_a; Examples.url_b; Examples.url_c]
  /\ try Examples.url_a = None
  /\ try Examples.url_b = None
  /\ try Examples.url_c = Some "scraped_images/dove_soap_p1.gif"%string
  /\ ScrapeResult.success out.1 = true
  /\ ImageResult.url <$> ScrapeResult.best_image out.1 = Some Examples.url_a
  /\ ImageResult.url <$> ScrapeResult.best_image out.1 <> Some Examples.url_c
  /\ ScrapeResult.local_path out.1 = None
  /\ requests out.2
     = [Examples.url_a; Examples.url_b; Examples.url_c;
        Examples.url_a; Examples.url_a; Examples.url_a].
Proof. vm_compute. repeat split; discriminate. Qed.

(** ** The ranked list of a call *)

(** The [images] of a result are the sorted scoring pass over the first 15
    merged candidates, and [best_image] is their head. *)
Lemma scrape_images (self : self_t) (product_name brand_name : string)
    (download : bool) (product_id : option string) (w : world) :
  let result :=
    (run (scrape_product_images self product_name brand_name download
            product_id) w).1 in
  exists scored : list ImageResult.t,
    Forall is_scored scored
    /\ NoDup (ImageResult.url <$> scored)
    /\ ScrapeResult.images result = sort_by_quality_desc scored
    /\ ScrapeResult.best_image result = head (ScrapeResult.images result).
Proof.
  cbv zeta. rewrite scrape_product_images_run. cbv zeta.
  destruct (unique_by_url _) as [|first others] eqn:Hunique.
  - exists []. repeat split; constructor.
  - cbn [fst snd ScrapeResult.images ScrapeResult.best_image].
    set (candidates := take 15 (first :: others)).
    destruct (run_score_candidates candidates w) as (Hurls & Hscored & _).
    cbv zeta in Hurls, Hscored.
    exists (run (score_candidates candidates) w).1.
    split; [assumption|]. split; [|split; reflexivity].
    rewrite Hurls. unfold candidates. rewrite fmap_take.
    eapply sublist_NoDup; [|apply sublist_take].
    rewrite <- Hunique. apply unique_from_NoDup.
Qed.

(** C6. If [x] is the first result carrying its URL (no result of [pre]
    has it), the merged list is the merge of [pre], then [x] itself, then
    results with other URLs: the URL occurs once, at the position of its
    first occurrence, whatever follows in [post].  The merged URLs are
    pairwise distinct, and so are the URLs of the ranked list a call
    returns. *)
Theorem merge_keeps_first_occurrence
    (pre post : list ImageResult.t) (x : ImageResult.t)
    (self : self_t) (product_name brand_name : string) (download : bool)
    (product_id : option string) (w : world) :
  ImageResult.url x ∉ (ImageResult.url <$> pre) ->
  (exists rest,
     unique_by_url (pre ++ x :: post) = unique_by_url pre ++ x :: rest
     /\ unique_by_url (pre ++ x :: post) !! length (unique_by_url pre)
        = Some x
     /\ (ImageResult.url x ∉ (ImageResult.url <$> unique_by_url pre))
     /\ (ImageResult.url x ∉ (ImageResult.url <$> rest)))
  /\ NoDup (ImageResult.url <$> unique_by_url (pre ++ x :: post))
  /\ NoDup (ImageResult.url <$>
              ScrapeResult.images
                (run (scrape_product_images self product_name brand_name
                        download product_id) w).1).
Proof.
  intros Hfirst. split; [|split].
  - destruct (unique_by_url_first_occurrence pre post x Hfirst)
      as (rest & Heq & Hpre & Hrest).
    exists rest. split; [assumption|]. split; [|split; assumption].
    rewrite Heq. apply list_lookup_middle. reflexivity.
  - apply unique_from_NoDup.
  - destruct (scrape_images self product_name brand_name download
                product_id w) as (scored & _ & Hnodup & -> & _).
    rewrite sort_by_quality_desc_perm. assumption.
Qed.

Lemma merge_keeps_first_occurrence_witness :
  let google := found Examples.url_a "google" in
  let bing_dup := found Examples.url_a "bing" in
  let bing_new := found Examples.url_b "bing" in
  (exists rest,
     unique_by_url ([bing_new] ++ google :: [bing_dup])
     = unique_by_url [bing_new] ++ google :: rest
     /\ unique_by_url ([bing_new] ++ google :: [bing_dup])
        !! length (unique_by_url [bing_new]) = Some google
     /\ (ImageResult.url google
         ∉ (ImageResult.url <$> unique_by_url [bing_new]))
     /\ (ImageResult.url google ∉ (ImageResult.url <$> rest)))
  /\ NoDup (ImageResult.url <$>
              unique_by_url ([bing_new] ++ google :: [bing_dup]))
  /\ NoDup (ImageResult.url <$>
              ScrapeResult.images
                (run (scrape_product_images Examples.scraper "Dove Soap"
                        "Dove" false None) Examples.world_stale).1).
Proof.
  cbv zeta.
  apply (merge_keeps_first_occurrence
           [found Examples.url_b "bing"] [found Examples.url_a "bing"]
           (found Examples.url_a "google") Examples.scraper "Dove Soap"
           "Dove" false None Examples.world_stale).
  simpl. rewrite list_elem_of_singleton. discriminate.
Defined.

(** ** Selection *)





(** ** Candidates whose metadata cannot be fetched *)

(** C3 (as the code has it). When the metadata fetch of a candidate fails
    (the request raises, or the body is not an image PIL can open), the
    scored candidate has width, height and byte size 0 and an empty format,
    and its score is the score of (0, 0, 0, ""), which is 0.05: the
    contribution of an unknown format. *)
Theorem failed_fetch_scores_unknown_format (result : ImageResult.t)
    (w : world) :
  (net w (length (requests w)) (ImageResult.url result) = None
   \/ exists content,
        net w (length (requests w)) (ImageResult.url result) = Some content
        /\ pil w content = None) ->
  let scored := (run (score_candidate result) w).1 in
  ImageResult.width scored = 0
  /\ ImageResult.height scored = 0
  /\ ImageResult.file_size scored = 0
  /\ ImageResult.format scored = ""%string
  /\ ImageResult.quality_score scored = _calculate_quality_score 0 0 0 ""
  /\ _calculate_quality_score 0 0 0 "" = 0.05%float.
Proof.
  intros Hfail. cbv zeta.
  unfold score_candidate, _get_image_info.
  rewrite run_bind, run_trigger_bind. cbn [handle fst snd].
  destruct Hfail as [->|(content & -> & Hpil)].
  - cbn. repeat split; vm_compute; reflexivity.
  - rewrite run_trigger_bind. cbn [handle fst snd pil set_requests].
    rewrite Hpil.
    cbn. repeat split; vm_compute; reflexivity.
Qed.

Lemma failed_fetch_scores_unknown_format_witness :
  ImageResult.quality_score
    (run (score_candidate (found Examples.url_a "google"))
       Examples.world_offline).1
  = 0.05%float.
Proof.
  destruct (failed_fetch_scores_unknown_format
              (found Examples.url_a "google") Examples.world_offline)
    as (_ & _ & _ & _ & Hscore & Hvalue).
  - left. reflexivity.
  - rewrite Hscore. exact Hvalue.
Defined.

(** C3 fails as stated: the score of (0, 0, 0, "") is not 0.0, and a
    candidate whose fetch failed carries a score above zero. *)
Lemma failed_fetch_score_is_not_zero :
  PrimFloat.eqb (_calculate_quality_score 0 0 0 "") 0 = false
  /\ _calculate_quality_score 0 0 0 "" <> 0%float
  /\ PrimFloat.ltb 0
       (ImageResult.quality_score
          (run (score_candidate (found Examples.url_a "google"))
             Examples.world_offline).1) = true.
Proof.
  split; [vm_compute; reflexivity|]. split; [|vm_compute; reflexivity].
  intros Heq.
  assert (Hb : PrimFloat.eqb (_calculate_quality_score 0 0 0 "") 0 = true)
    by (rewrite Heq; vm_compute; reflexivity).
  vm_compute in Hb. discriminate.
Qed.

(** ** Files written by a download *)



(** ** Placeholder images in the downloader's search *)

Lemma dict_fromkeys_cons (x : string) (l : list string) :
  exists r, Py.dict_fromkeys (x :: l) = x :: r.
Proof.
  unfold Py.dict_fromkeys. simpl.
  destruct (decide (x ∈ (∅ : gset string))) as [Hin|_]; [|eauto].
  apply not_elem_of_empty in Hin. contradiction.
Qed.





(** C8, at the failing input.  For the product "Bath Soap" of the unknown
    brand "Acme", with one genuine Google hit, the search returns the hit
    followed by three generated placeholder URLs, each attributed to the
    source "company" with confidence 0.6; [main] passes the list on as it
    is, with no entry labelled "fallback". *)
Theorem placeholders_reported_as_company_results :
  let results :=
    (run (Downloader.search_product_images "Bath Soap" "Acme")
       Examples.world_unbranded).1 in
  results
  = [ Downloader.mk Examples.url_shop "google" 0.9%float;
      Downloader.mk
        "https://via.placeholder.com/400x400/CCCCCC/666666?text=Bath%20Soap"
        "company" 0.6%float;
      Downloader.mk
        "https://dummyimage.com/400x400/f0f0f0/333&text=Bath%20Soap"
        "company" 0.6%float;
      Downloader.mk "https://picsum.photos/400/400?random=6789"
        "company" 0.6%float ]
  /\ (run (Downloader.search_company_websites "Bath Soap" "Acme" 3)
        Examples.world_unbranded).1
     = Downloader.generic_images "Bath Soap" 4611686018427356789
  /\ (run (Downloader.main_results "Bath Soap" "Acme")
        Examples.world_unbranded).1 = results.
Proof. vm_compute. repeat split. Qed.

(* ===================================================================== *)
(** * Further properties of the code *)
(* ===================================================================== *)

(** ** Scoring *)

(** The score does not depend on which side is called the width: a
    portrait image scores like the same image in landscape. *)
Theorem score_ignores_orientation (width height file_size : Z)
    (format : string) :
  _calculate_quality_score width height file_size format
  = _calculate_quality_score height width file_size format.
Proof.
  unfold _calculate_quality_score.
  rewrite (Z.min_comm height width), (Z.max_comm height width).
  rewrite (andb_comm (0 <? height) (0 <? width)).
  reflexivity.
Qed.

(** No input scores below 0.05, the contribution of an unknown format: the
    score is never zero, whatever the dimensions and the byte size, even
    negative ones. *)
Theorem score_never_below_format_floor (width height file_size : Z)
    (format : string) :
  PrimFloat.leb 0.05
    (_calculate_quality_score width height file_size format) = true
  /\ PrimFloat.ltb 0
       (_calculate_quality_score width height file_size format) = true.
Proof.
  split.
  - apply (score_values_forallb (fun v => PrimFloat.leb 0.05 v)).
    vm_compute. reflexivity.
  - apply (score_values_forallb (fun v => PrimFloat.ltb 0 v)).
    vm_compute. reflexivity.
Qed.

Lemma resolution_band_not_ideal (width height : Z) :
  (400 <=? Z.min width height) && (Z.max width height <=? 1200) = false ->
  Bands.resolution_band width height
  ∈ [Some 0.3%float; Some 0.15%float; None].
Proof.
  intros Hideal. unfold Bands.resolution_band. rewrite Hideal.
  repeat case_match; set_solver.
Qed.

(** A score equals 1.0 exactly when all four contributions are full: both
    sides between 400 and 1200, longer side at most 1.5 times the shorter,
    10000 to 500000 bytes, and format jpeg or jpg in any letter case.  Every
    other image scores strictly less, so [min(score, 1.0)] never cuts
    anything off. *)
Theorem perfect_score_iff_all_bands_full (width height file_size : Z)
    (format : string) :
  PrimFloat.eqb (_calculate_quality_score width height file_size format) 1
  = ((400 <=? Z.min width height) && (Z.max width height <=? 1200))
    && (Z.max width height * 2 <=? 3 * Z.min width height)
    && ((10000 <=? file_size) && (file_size <=? 500000))
    && (String.eqb (Py.lower format) "jpeg"
        || String.eqb (Py.lower format) "jpg").
Proof.
  rewrite score_as_bands.
  destruct ((400 <=? Z.min width height) && (Z.max width height <=? 1200))
    eqn:Hideal.
  - (* inside the ideal band both sides are positive *)
    assert (Hpos : (0 <? width) && (0 <? height) = true).
    { apply andb_true_iff in Hideal as [Hmin _].
      apply andb_true_iff. split; apply Z.ltb_lt; lia. }
    unfold Bands.resolution_band, Bands.aspect_band, Bands.size_band,
      aspect_ratio_le.
    rewrite Hideal, Hpos.
    unfold Bands.format_band. rewrite format_scores_get.
    generalize (Py.lower format) as fmt. intros fmt.
    destruct (Z.max width height * 2 <=? 3 * Z.min width height);
      [|destruct (Z.max width height * 1 <=? 2 * Z.min width height)];
    (destruct ((10000 <=? file_size) && (file_size <=? 500000)) eqn:Hsize;
     [assert (Hs : (0 <? file_size) = true)
        by (apply andb_true_iff in Hsize as [Hlo _]; apply Z.ltb_lt; lia);
      rewrite Hs
     |destruct (0 <? file_size);
      [destruct ((5000 <=? file_size) && (file_size <=? 1000000))|]]);
    destruct (String.eqb fmt "jpeg"); try (vm_compute; reflexivity);
    destruct (String.eqb fmt "jpg"); try (vm_compute; reflexivity);
    destruct (String.eqb fmt "png"); try (vm_compute; reflexivity);
    destruct (String.eqb fmt "webp"); try (vm_compute; reflexivity);
    destruct (String.eqb fmt "gif"); vm_compute; reflexivity.
  - pose proof (resolution_band_not_ideal width height Hideal) as Hr.
    pose proof (aspect_band_in width height) as Ha.
    pose proof (size_band_in file_size) as Hz.
    pose proof (format_band_in format) as Hf.
    revert Hr Ha Hz Hf.
    generalize (Bands.resolution_band width height)
      (Bands.aspect_band width height) (Bands.size_band file_size)
      (Bands.format_band format).
    unfold Bands.aspect_options, Bands.size_options, Bands.format_options.
    intros r a z f.
    rewrite !elem_of_cons, !elem_of_nil.
    intros [->|[->|[->|[]]]] [->|[->|[->|[]]]] [->|[->|[->|[]]]]
      [->|[->|[->|[->|[]]]]]; vm_compute; reflexivity.
Qed.

(** ** What one search contributes *)

Lemma fromkeys_from_elem (seen : gset string) (l : list string) (x : string) :
  x ∈ Py.fromkeys_from seen l <-> x ∈ l /\ x ∉ seen.
Proof.
  revert seen. induction l as [|y l IH]; intros seen; simpl.
  - rewrite !elem_of_nil. tauto.
  - destruct (decide (y ∈ seen)) as [Hin|Hnin].
    + rewrite IH, elem_of_cons. split.
      * intros [Hx Hs]. auto.
      * intros [[->|Hx] Hs]; [contradiction|auto].
    + rewrite !elem_of_cons, IH, elem_of_union, elem_of_singleton. split.
      * intros [->|[Hx Hs]]; [auto|]. split; [auto|tauto].
      * intros [[->|Hx] Hs]; [auto|].
        destruct (decide (x = y)) as [->|Hne]; [auto|]. right. tauto.
Qed.

Lemma fromkeys_from_NoDup (seen : gset string) (l : list string) :
  NoDup (Py.fromkeys_from seen l).
Proof.
  revert seen. induction l as [|y l IH]; intros seen; simpl.
  - constructor.
  - destruct (decide (y ∈ seen)); [apply IH|].
    constructor; [|apply IH].
    rewrite fromkeys_from_elem, elem_of_union, elem_of_singleton. tauto.
Qed.

Lemma is_valid_found (url source : string) :
  is_valid (found url source) = negb (String.eqb url "").
Proof. unfold is_valid, found. simpl. apply andb_true_r. Qed.

Lemma NoDup_fmap_list_filter {A B : Type} (f : A -> B) (p : A -> bool)
    (l : list A) :
  NoDup (f <$> l) -> NoDup (f <$> List.filter p l).
Proof.
  induction l as [|x l IH]; [auto|].
  cbn [List.filter]. rewrite fmap_cons. intros [Hx Hl]%NoDup_cons.
  destruct (p x); [|auto].
  rewrite fmap_cons. apply NoDup_cons. split; [|auto].
  intros (y & Hy & Hin)%list_elem_of_fmap. apply Hx.
  apply list_elem_of_fmap. exists y. split; [assumption|].
  apply list_elem_of_In. apply list_elem_of_In in Hin.
  apply filter_In in Hin. tauto.
Qed.

Lemma valid_results_are_found (w : world) (e : engine)
    (product_name brand_name : string) :
  Forall (fun r => r = found (ImageResult.url r) (Searches.source_name e)
                   /\ ImageResult.url r <> ""%string)
    (Searches.valid_results w e product_name brand_name).
Proof.
  unfold Searches.valid_results.
  apply Forall_forall. intros r Hr%list_elem_of_In.
  apply filter_In in Hr as [Hr Hvalid].
  destruct (pages w e product_name brand_name) as [msg|image_urls];
    simpl in Hr.
  - destruct Hr as [<-|[]]. discriminate.
  - apply list_elem_of_In, list_elem_of_fmap in Hr as (u & -> & _).
    split; [reflexivity|].
    rewrite is_valid_found in Hvalid. simpl.
    intros ->. discriminate.
Qed.

(** What a search hands to the merge: at most its cap of results (10 for
    Google, 8 for Bing, 5 for the marketplace search), with pairwise
    distinct, non-empty URLs taken from the page, all attributed to that
    source and carrying no error and no measurement yet.  A search that
    raised hands over nothing: its error result is filtered out. *)
Theorem search_contribution (w : world) (e : engine)
    (product_name brand_name : string) :
  let valid := Searches.valid_results w e product_name brand_name in
  (length valid <= Searches.source_limit e)%nat
  /\ NoDup (ImageResult.url <$> valid)
  /\ Forall (fun r => r = found (ImageResult.url r) (Searches.source_name e)
                      /\ ImageResult.url r <> ""%string) valid
  /\ (forall e', pages w e product_name brand_name = inl e' -> valid = [])
  /\ (forall image_urls,
        pages w e product_name brand_name = inr image_urls ->
        forall r, r ∈ valid -> ImageResult.url r ∈ image_urls).
Proof.
  cbv zeta. unfold Searches.valid_results.
  destruct (pages w e product_name brand_name) as [msg|image_urls] eqn:Hpages;
    simpl.
  - repeat split; try constructor; try lia.
    intros image_urls [=].
  - set (unique_urls := take (Searches.source_limit e)
                          (Py.dict_fromkeys image_urls)).
    split; [|split; [|split; [|split]]].
    + etransitivity; [apply filter_length_le|].
      rewrite length_fmap. unfold unique_urls. rewrite length_take. lia.
    + apply NoDup_fmap_list_filter.
      rewrite <- list_fmap_compose.
      replace (ImageResult.url ∘ _) with (@id string) by reflexivity.
      rewrite list_fmap_id. unfold unique_urls.
      eapply sublist_NoDup; [|apply sublist_take].
      apply fromkeys_from_NoDup.
    + pose proof (valid_results_are_found w e product_name brand_name)
        as Hfound.
      unfold Searches.valid_results in Hfound. rewrite Hpages in Hfound.
      exact Hfound.
    + intros e' [=].
    + intros urls [= <-] r Hr%list_elem_of_In.
      apply filter_In in Hr as [Hr _].
      apply list_elem_of_In, list_elem_of_fmap in Hr as (u & -> & Hu).
      simpl. unfold unique_urls in Hu.
      pose proof (sublist_take (Py.dict_fromkeys image_urls)
                    (Searches.source_limit e)) as Hu0.
      apply (elem_of_sublist _ _ _ Hu) in Hu0.
      apply fromkeys_from_elem in Hu0 as [Hu0 _]. exact Hu0.
Qed.

(** ** The merge, further *)

Lemma unique_from_urls (seen : gset string) (l : list ImageResult.t)
    (u : string) :
  u ∈ (ImageResult.url <$> unique_from seen l)
  <-> u ∈ (ImageResult.url <$> l) /\ u ∉ seen.
Proof.
  revert seen. induction l as [|x l IH]; intros seen; simpl.
  - rewrite !elem_of_nil. tauto.
  - destruct (decide (ImageResult.url x ∈ seen)) as [Hin|Hnin].
    + rewrite IH, elem_of_cons. split.
      * intros [Hu Hs]. auto.
      * intros [[->|Hu] Hs]; [contradiction|auto].
    + rewrite !fmap_cons, !elem_of_cons, IH, elem_of_union,
        elem_of_singleton.
      split.
      * intros [->|[Hu Hs]]; [auto|]. split; [auto|tauto].
      * intros [[->|Hu] Hs]; [auto|].
        destruct (decide (u = ImageResult.url x)) as [->|Hne]; [auto|].
        right. tauto.
Qed.

Lemma unique_from_fixed (seen : gset string) (l : list ImageResult.t) :
  unique_from seen l = l
  <-> NoDup (ImageResult.url <$> l)
      /\ (forall u, u ∈ (ImageResult.url <$> l) -> u ∉ seen).
Proof.
  split.
  - intros Heq. split.
    + rewrite <- Heq. apply unique_from_NoDup.
    + intros u Hu. rewrite <- Heq in Hu.
      apply unique_from_urls in Hu. tauto.
  - revert seen. induction l as [|x l IH]; intros seen [Hnodup Hseen];
      simpl; [reflexivity|].
    rewrite fmap_cons in Hnodup, Hseen.
    apply NoDup_cons in Hnodup as [Hx Hnodup].
    destruct (decide (ImageResult.url x ∈ seen)) as [Hin|_].
    + exfalso. apply (Hseen (ImageResult.url x)); [left|assumption].
    + f_equal. apply IH. split; [assumption|].
      intros u Hu. rewrite elem_of_union, elem_of_singleton.
      intros [->|Hs]; [contradiction|].
      apply (Hseen u); [right; assumption|assumption].
Qed.

(** The merge loses no URL and invents none, changes nothing in a list
    whose URLs are already distinct (and only in such a list), and merging
    a merged list again is the identity. *)
Theorem merge_keeps_urls_and_is_idempotent (all_results : list ImageResult.t) :
  (forall u, u ∈ (ImageResult.url <$> unique_by_url all_results)
             <-> u ∈ (ImageResult.url <$> all_results))
  /\ (unique_by_url all_results = all_results
      <-> NoDup (ImageResult.url <$> all_results))
  /\ unique_by_url (unique_by_url all_results) = unique_by_url all_results.
Proof.
  unfold unique_by_url. split; [|split].
  - intros u. rewrite unique_from_urls. split; [tauto|].
    intros Hu. split; [assumption|apply not_elem_of_empty].
  - rewrite unique_from_fixed. split; [tauto|].
    intros Hnodup. split; [assumption|]. intros u _. apply not_elem_of_empty.
  - apply unique_from_fixed. split; [apply unique_from_NoDup|].
    intros u _. apply not_elem_of_empty.
Qed.

(** ** Ranking, further *)

Lemma sort_descending_noop (l : list ImageResult.t) :
  descending l -> sort_by_quality_desc l = l.
Proof.
  induction l as [|x l IH]; intros Hdesc; [reflexivity|].
  destruct Hdesc as [Hx Hdesc]. simpl. rewrite (IH Hdesc).
  destruct l as [|y r]; [reflexivity|]. simpl.
  apply Forall_cons in Hx as [Hxy _]. rewrite Hxy. reflexivity.
Qed.

(** Ranking a ranked list again changes nothing. *)
Theorem ranking_is_idempotent (scored : list ImageResult.t) :
  Forall is_scored scored ->
  sort_by_quality_desc (sort_by_quality_desc scored)
  = sort_by_quality_desc scored.
Proof.
  intros Hscored. apply sort_descending_noop.
  apply sort_by_quality_desc_descending. assumption.
Qed.

Lemma ranking_is_idempotent_witness :
  sort_by_quality_desc
    (sort_by_quality_desc
       [Examples.scored_a; Examples.scored_b; Examples.scored_c])
  = sort_by_quality_desc
      [Examples.scored_a; Examples.scored_b; Examples.scored_c].
Proof.
  apply (ranking_is_idempotent
           [Examples.scored_a; Examples.scored_b; Examples.scored_c]).
  repeat constructor.
Defined.

(** ** The result of a call, further *)

Lemma run_score_candidate_error (result : ImageResult.t) (w : world) :
  ImageResult.error (run (score_candidate result) w).1
  = ImageResult.error result.
Proof.
  unfold score_candidate, _get_image_info. simpl.
  destruct (net w (length (requests w)) (ImageResult.url result)); simpl.
  - destruct (pil w b) as [[[width height] fmt ok]|]; reflexivity.
  - reflexivity.
Qed.

(** The scoring loop keeps the URL, the source and the error of every
    candidate, in order. *)
Lemma run_score_candidates_fields (candidates : list ImageResult.t)
    (w : world) :
  Forall2 (fun c s => ImageResult.url s = ImageResult.url c
                      /\ ImageResult.source s = ImageResult.source c
                      /\ ImageResult.error s = ImageResult.error c)
    candidates (run (score_candidates candidates) w).1.
Proof.
  revert w. induction candidates as [|result rest IH]; intros w.
  - constructor.
  - cbn [score_candidates]. cbv zeta.
    rewrite !run_bind, run_ret. cbn [fst snd].
    destruct (run_score_candidate result w) as (Hurl & Hsource & _ & _).
    constructor; [|apply IH].
    split; [assumption|]. split; [assumption|].
    apply run_score_candidate_error.
Qed.

Lemma all_results_genuine (w : world) (product_name brand_name : string) :
  Forall (fun r => ImageResult.url r <> ""%string
                   /\ ImageResult.source r ∈ ["google"; "bing"; "ecommerce"]
                   /\ ImageResult.error r = None)
    (Searches.all_results w product_name brand_name).
Proof.
  assert (Hone : forall e,
    Forall (fun r => ImageResult.url r <> ""%string
                     /\ ImageResult.source r ∈ ["google"; "bing"; "ecommerce"]
                     /\ ImageResult.error r = None)
      (Searches.valid_results w e product_name brand_name)).
  { intros e.
    pose proof (valid_results_are_found w e product_name brand_name) as Hall.
    eapply Forall_impl; [exact Hall|].
    intros r [Hr Hurl]. split; [assumption|]. rewrite Hr. simpl.
    split; [|reflexivity].
    destruct e; simpl; rewrite !elem_of_cons; auto. }
  unfold Searches.all_results. rewrite !Forall_app. auto.
Qed.

(** Every image of a result is a genuine search hit that was measured: it
    has a non-empty URL, comes from one of the three sources, carries no
    error and the score of its own metadata; and a result never holds more
    than 15 images. *)
Theorem ranked_images_are_scored_hits (self : self_t)
    (product_name brand_name : string) (download : bool)
    (product_id : option string) (w : world) :
  let result :=
    (run (scrape_product_images self product_name brand_name download
            product_id) w).1 in
  Forall (fun r => ImageResult.url r <> ""%string
                   /\ ImageResult.source r ∈ ["google"; "bing"; "ecommerce"]
                   /\ ImageResult.error r = None
                   /\ is_scored r) (ScrapeResult.images result)
  /\ (length (ScrapeResult.images result) <= 15)%nat.
Proof.
  cbv zeta. rewrite scrape_product_images_run. cbv zeta.
  destruct (unique_by_url _) as [|first others] eqn:Hunique.
  - cbn. split; [constructor|lia].
  - cbn [fst snd ScrapeResult.images].
    set (candidates := take 15 (first :: others)).
    destruct (run_score_candidates candidates w) as (Hurls & Hscored & _).
    pose proof (run_score_candidates_fields candidates w) as Hfields.
    set (scored := (run (score_candidates candidates) w).1) in *.
    assert (Hcand : Forall (fun r => ImageResult.url r <> ""%string
                     /\ ImageResult.source r ∈ ["google"; "bing"; "ecommerce"]
                     /\ ImageResult.error r = None) candidates).
    { apply Forall_forall. intros r Hr.
      pose proof (all_results_genuine w product_name brand_name) as Hall.
      rewrite Forall_forall in Hall. apply Hall.
      apply (unique_from_subset ∅). fold (unique_by_url
        (Searches.all_results w product_name brand_name)).
      rewrite Hunique. unfold candidates in Hr.
      eapply elem_of_sublist; [exact Hr|apply sublist_take]. }
    split.
    + rewrite sort_by_quality_desc_perm.
      clear Hurls. revert Hcand Hscored.
      induction Hfields as [|c s cs ss (Hu & Hs & He) _ IH];
        intros Hcand Hscored; [constructor|].
      apply Forall_cons in Hcand as [(Hcu & Hcs & Hce) Hcand].
      apply Forall_cons in Hscored as [Hsc Hscored].
      constructor; [|apply IH; assumption].
      rewrite Hu, Hs, He. auto.
    + rewrite sort_by_quality_desc_perm.
      replace (length scored) with (length (ImageResult.url <$> scored))
        by apply length_fmap.
      rewrite Hurls, length_fmap. unfold candidates.
      rewrite length_take. lia.
Qed.

(** A result has one of two shapes.  Success: no error, at least one image
    (as many as there are merged candidates, up to 15), and [best_image] is
    the first of them.  Failure: the error "No images found from any
    source", no image, no best image, no local path, and the world is as it
    was: no image was requested and nothing was written.  Either way the
    product and brand names are handed back. *)
Theorem result_shape (self : self_t) (product_name brand_name : string)
    (download : bool) (product_id : option string) (w : world) :
  let out :=
    run (scrape_product_images self product_name brand_name download
           product_id) w in
  let merged :=
    unique_by_url (Searches.all_results w product_name brand_name) in
  ScrapeResult.product_name out.1 = product_name
  /\ ScrapeResult.brand_name out.1 = brand_name
  /\ ((ScrapeResult.success out.1 = true
       /\ ScrapeResult.error out.1 = None
       /\ length (ScrapeResult.images out.1) = Nat.min 15 (length merged)
       /\ (exists best rest,
             ScrapeResult.images out.1 = best :: rest
             /\ ScrapeResult.best_image out.1 = Some best))
      \/ (ScrapeResult.success out.1 = false
          /\ ScrapeResult.error out.1
             = Some "No images found from any source"%string
          /\ ScrapeResult.images out.1 = []
          /\ ScrapeResult.best_image out.1 = None
          /\ ScrapeResult.local_path out.1 = None
          /\ out.2 = w)).
Proof.
  cbv zeta. rewrite scrape_product_images_run. cbv zeta.
  destruct (unique_by_url _) as [|first others] eqn:Hunique.
  - cbn. split; [reflexivity|]. split; [reflexivity|]. right. auto 10.
  - cbn [fst snd ScrapeResult.images ScrapeResult.product_name
         ScrapeResult.brand_name ScrapeResult.success ScrapeResult.error
         ScrapeResult.best_image].
    split; [reflexivity|]. split; [reflexivity|]. left.
    split; [reflexivity|]. split; [reflexivity|].
    set (candidates := take 15 (first :: others)).
    destruct (run_score_candidates candidates w) as (Hurls & _ & _).
    set (scored := (run (score_candidates candidates) w).1) in *.
    assert (Hlen : length (sort_by_quality_desc scored)
                   = Nat.min 15 (length (first :: others))).
    { rewrite sort_by_quality_desc_perm.
      replace (length scored) with (length (ImageResult.url <$> scored))
        by apply length_fmap.
      rewrite Hurls, length_fmap. unfold candidates.
      apply length_take. }
    split; [assumption|].
    destruct (sort_by_quality_desc scored) as [|best rest];
      [simpl in Hlen; lia|].
    exists best, rest. auto.
Qed.

(** Search-only mode ([download=False]) writes nothing and does not sleep:
    files and clock are as before, no local path is reported, and the
    image requests made are exactly one metadata fetch per candidate, in
    discovery order (so at most 15). *)
Theorem search_only_mode (self : self_t) (product_name brand_name : string)
    (product_id : option string) (w : world) :
  let out :=
    run (scrape_product_images self product_name brand_name false
           product_id) w in
  let candidates :=
    take 15 (unique_by_url (Searches.all_results w product_name brand_name)) in
  ScrapeResult.local_path out.1 = None
  /\ fs out.2 = fs w
  /\ clock out.2 = clock w
  /\ requests out.2 = requests w ++ (ImageResult.url <$> candidates)
  /\ (length candidates <= 15)%nat.
Proof.
  cbv zeta. rewrite scrape_product_images_run. cbv zeta.
  destruct (unique_by_url _) as [|first others] eqn:Hunique.
  - cbn. rewrite app_nil_r. repeat split; lia.
  - set (candidates := take 15 (first :: others)).
    destruct (run_score_candidates candidates w) as (_ & _ & Hw).
    unfold Searches.download_best.
    assert (Hnone : forall best : option ImageResult.t,
      match best with
      | Some best0 =>
          if false && negb (String.eqb (ImageResult.url best0) "")
          then download_image self (ImageResult.url best0) product_name
                 product_id 3
          else mret None
      | None => mret None
      end = mret None) by (intros [?|]; reflexivity).
    rewrite Hnone, run_ret. cbn [fst snd ScrapeResult.local_path].
    rewrite Hw. cbn. repeat split.
    unfold candidates. rewrite length_take. lia.
Qed.

(** ** The download loop, further *)

(** The format [download_image] puts in the file name. *)
Lemma verified_format_of (w : world) (content : bytes) (img : pil_image) :
  pil w content = Some img -> img_verify img = true ->
  verified_format (handle (image_open content) w).1
  = Some match img_format img with
         | Some f => if String.eqb f "" then "jpg"%string else Py.lower f
         | None => "jpg"%string
         end.
Proof.
  intros Hpil Hverify. cbn [handle fst]. rewrite Hpil.
  unfold verified_format. rewrite Hverify. reflexivity.
Qed.

Lemma download_loop_unreachable (self : self_t) (url product_name : string)
    (product_id : option string) (max_retries : Z) (remaining : nat) :
  forall (attempt : Z) (w : world),
    attempt + Z.of_nat remaining = max_retries ->
    (forall n, net w n url = None) ->
    let out :=
      run (download_loop self url product_name product_id max_retries
             attempt remaining) w in
    out.1 = None
    /\ requests out.2 = requests w ++ replicate remaining url
    /\ clock out.2 = clock w + 2000 * Z.of_nat (remaining - 1)
    /\ fs out.2 = fs w.
Proof.
  induction remaining as [|remaining IH]; intros attempt w Hsum Hnet;
    cbv zeta.
  - cbn [download_loop]. rewrite run_ret. cbn [fst snd replicate].
    rewrite app_nil_r. repeat split. lia.
  - cbn [download_loop]. rewrite run_trigger_bind. cbn [handle fst snd].
    rewrite Hnet.
    destruct (attempt <? max_retries - 1) eqn:Hlast.
    + apply Z.ltb_lt in Hlast.
      rewrite run_trigger_bind. cbn [handle fst snd].
      destruct (IH (attempt + 1)
                  (set_clock (set_requests w (requests w ++ [url]))
                     (clock (set_requests w (requests w ++ [url]))
                      + 1000 * 2)))
        as (Hres & Hreq & Hclock & Hfs); [lia|exact Hnet|].
      split; [assumption|]. split; [|split].
      * rewrite Hreq. cbn. rewrite <- app_assoc. reflexivity.
      * rewrite Hclock. cbn [clock set_clock set_requests]. lia.
      * rewrite Hfs. reflexivity.
    + apply Z.ltb_ge in Hlast.
      assert (remaining = 0%nat) as -> by lia.
      rewrite run_ret. cbn [fst snd replicate requests clock fs set_requests].
      repeat split. simpl. lia.
Qed.

(** When every request for the URL raises, [download_image] gives up with
    [None] after exactly [max_retries] requests (none at all when
    [max_retries] is zero or negative), having slept 2 seconds between
    consecutive tries and written nothing. *)
Theorem download_gives_up_after_max_retries (self : self_t)
    (url product_name : string) (product_id : option string)
    (max_retries : Z) (w : world) :
  (forall n, net w n url = None) ->
  let out :=
    run (download_image self url product_name product_id max_retries) w in
  out.1 = None
  /\ requests out.2 = requests w ++ replicate (Z.to_nat max_retries) url
  /\ clock out.2 = clock w + 2000 * Z.max 0 (max_retries - 1)
  /\ fs out.2 = fs w.
Proof.
  intros Hnet. cbv zeta. unfold download_image.
  destruct (Z.le_gt_cases max_retries 0) as [Hle|Hgt].
  - replace (Z.to_nat max_retries) with 0%nat by lia.
    cbn [download_loop]. rewrite run_ret. cbn [fst snd replicate].
    rewrite app_nil_r. repeat split. lia.
  - destruct (download_loop_unreachable self url product_name product_id
                max_retries (Z.to_nat max_retries) 0 w)
      as (Hres & Hreq & Hclock & Hfs); [lia|exact Hnet|].
    split; [assumption|]. split; [assumption|]. split; [|assumption].
    rewrite Hclock. lia.
Qed.

Lemma download_gives_up_after_max_retries_witness :
  let out :=
    run (download_image Examples.scraper Examples.url_a "Dove Soap" None 3)
      Examples.world_offline in
  out.1 = None
  /\ requests out.2
     = requests Examples.world_offline
       ++ replicate (Z.to_nat 3) Examples.url_a
  /\ clock out.2 = clock Examples.world_offline + 2000 * Z.max 0 (3 - 1)
  /\ fs out.2 = fs Examples.world_offline.
Proof.
  apply (download_gives_up_after_max_retries Examples.scraper Examples.url_a
           "Dove Soap" None 3 Examples.world_offline).
  intros n. reflexivity.
Defined.

(** When the first response is an image PIL verifies, of at least 1024
    bytes, and the target can be written, [download_image] makes that one
    request, does not sleep, stores exactly the received bytes at the
    target path and returns the path; the extension is PIL's format in
    lower case, or [jpg] when PIL reports none. *)
Theorem download_succeeds_on_first_good_response (self : self_t)
    (url product_name : string) (product_id : option string)
    (max_retries : Z) (w : world) (content : bytes) (img : pil_image) :
  1 <= max_retries ->
  net w (length (requests w)) url = Some content ->
  pil w content = Some img ->
  img_verify img = true ->
  1024 <= Z.of_nat (length content) ->
  let extension :=
    match img_format img with
    | Some f => if String.eqb f "" then "jpg"%string else Py.lower f
    | None => "jpg"%string
    end in
  let filepath :=
    target_path self product_name product_id (clock w) extension in
  disk_ok w filepath = true ->
  let out :=
    run (download_image self url product_name product_id max_retries) w in
  out.1 = Some filepath
  /\ fs out.2 = <[filepath := content]> (fs w)
  /\ requests out.2 = requests w ++ [url]
  /\ clock out.2 = clock w.
Proof.
  intros Hretries Hnet Hpil Hverify Hbig extension filepath Hdisk.
  cbv zeta. unfold download_image.
  destruct (Z.to_nat max_retries) as [|remaining] eqn:Hrem; [lia|].
  cbn [download_loop]. rewrite run_trigger_bind. cbn [handle fst snd].
  rewrite Hnet. rewrite run_trigger_bind.
  rewrite (verified_format_of _ content img) by assumption.
  cbn [handle fst snd].
  rewrite run_trigger_bind. cbn [handle fst snd].
  rewrite run_trigger_bind. cbn [handle].
  fold extension. cbn [clock set_requests disk_ok]. fold filepath.
  rewrite Hdisk. cbn [fst snd].
  rewrite run_trigger_bind. cbn [handle fst snd fs set_fs].
  rewrite lookup_insert_eq.
  replace (Z.of_nat (length content) <? 1024) with false
    by (symmetry; apply Z.ltb_ge; assumption).
  rewrite run_ret. cbn. auto.
Qed.

Lemma download_succeeds_on_first_good_response_witness :
  (run (download_image Examples.scraper Examples.url_a "Dove Soap"
          (Some "p1"%string) 3) Examples.world_google_only).1
  = Some "scraped_images/dove_soap_p1.jpeg"%string.
Proof.
  destruct (download_succeeds_on_first_good_response Examples.scraper
              Examples.url_a "Dove Soap" (Some "p1"%string) 3
              Examples.world_google_only (Examples.body Byte.x41 2000)
              {| img_size := (800, 800); img_format := Some "JPEG"%string;
                 img_verify := true |})
    as (Hpath & _); [lia|reflexivity|reflexivity|reflexivity| |reflexivity|].
  - vm_compute. discriminate.
  - exact Hpath.
Defined.




(** A path returned by the loop holds bytes that PIL opened and verified
    during the download, at least 1024 of them; the decoder is the one the
    run started with. *)
Lemma download_loop_stored_image (self : self_t) (url product_name : string)
    (product_id : option string) (max_retries : Z) (remaining : nat) :
  forall (attempt : Z) (w : world),
    let out :=
      run (download_loop self url product_name product_id max_retries
             attempt remaining) w in
    pil out.2 = pil w
    /\ forall p, out.1 = Some p ->
         exists content img,
           fs out.2 !! p = Some content
           /\ 1024 <= Z.of_nat (length content)
           /\ pil w content = Some img
           /\ img_verify img = true.
Proof.
  induction remaining as [|remaining IH]; intros attempt w; cbv zeta.
  - cbn. split; [reflexivity|discriminate].
  - cbn [download_loop].
    set (retry := fun secs : Z =>
      if attempt <? max_retries - 1
      then trigger (time_sleep secs) ≫= (fun _ : unit =>
             download_loop self url product_name product_id max_retries
               (attempt + 1) remaining)
      else mret None).
    assert (Hretry : forall secs w1,
      pil w1 = pil w ->
      pil (run (retry secs) w1).2 = pil w
      /\ forall p, (run (retry secs) w1).1 = Some p ->
           exists content img,
             fs (run (retry secs) w1).2 !! p = Some content
             /\ 1024 <= Z.of_nat (length content)
             /\ pil w content = Some img
             /\ img_verify img = true).
    { intros secs w1 Hw1. unfold retry.
      destruct (attempt <? max_retries - 1).
      - rewrite run_trigger_bind. cbn [handle fst snd].
        destruct (IH (attempt + 1) (set_clock w1 (clock w1 + 1000 * secs)))
          as (Hpil & Hret).
        cbn [pil set_clock] in Hpil, Hret. rewrite Hw1 in Hpil, Hret.
        split; assumption.
      - rewrite run_ret. cbn [fst snd]. split; [assumption|discriminate]. }
    rewrite run_trigger_bind. cbn [handle fst snd].
    set (w1 := set_requests w (requests w ++ [url])).
    destruct (net w (length (requests w)) url) as [content|];
      [|apply Hretry; reflexivity].
    rewrite run_trigger_bind. cbn [handle fst snd].
    change (pil w1 content) with (pil w content).
    destruct (pil w content) as [img|] eqn:Hpil;
      [|apply Hretry; reflexivity].
    unfold verified_format.
    destruct (img_verify img) eqn:Hverify; [|apply Hretry; reflexivity].
    rewrite run_trigger_bind. cbn [handle fst snd].
    rewrite run_trigger_bind. cbn [handle].
    match goal with
    | |- context [disk_ok w1 ?path] => set (filepath := path)
    end.
    destruct (disk_ok w1 filepath); cbn [fst snd];
      [|apply Hretry; reflexivity].
    rewrite run_trigger_bind. cbn [handle fst snd fs set_fs].
    rewrite lookup_insert_eq.
    destruct (Z.of_nat (length content) <? 1024) eqn:Hsmall.
    + rewrite run_trigger_bind. cbn [handle fs set_fs].
      rewrite lookup_insert_eq. cbn [fst snd].
      apply Hretry. reflexivity.
    + apply Z.ltb_ge in Hsmall. rewrite run_ret. cbn [fst snd].
      split; [reflexivity|].
      intros p [= <-]. exists content, img. cbn [fs set_fs].
      rewrite lookup_insert_eq. auto.
Qed.

(** Download and validation agree: a path returned by [download_image]
    passes [validate_image] in the world the download leaves, which
    reports a file size of at least 1024 bytes. *)
Theorem downloaded_file_validates (self : self_t)
    (url product_name : string) (product_id : option string)
    (max_retries : Z) (w : world) (filepath : string) :
  let out :=
    run (download_image self url product_name product_id max_retries) w in
  out.1 = Some filepath ->
  exists info,
    ScraperChecks.validate_image filepath out.2 = (true, inr info)
    /\ 1024 <= ScraperChecks.info_file_size info.
Proof.
  cbv zeta. unfold download_image. intros Hpath.
  destruct (download_loop_stored_image self url product_name product_id
              max_retries (Z.to_nat max_retries) 0 w) as (Hpil & Hret).
  destruct (Hret filepath Hpath) as (content & img & Hfile & Hbig & Himg & _).
  unfold ScraperChecks.validate_image. rewrite Hfile.
  replace (Z.of_nat (length content) <? 1024) with false
    by (symmetry; apply Z.ltb_ge; assumption).
  rewrite Hpil, Himg. destruct (img_size img) as [width height].
  eexists. split; [reflexivity|]. exact Hbig.
Qed.

Lemma downloaded_file_validates_witness :
  exists info,
    ScraperChecks.validate_image "scraped_images/dove_soap_p1.jpeg"
      (run (download_image Examples.scraper Examples.url_a "Dove Soap"
              (Some "p1"%string) 3) Examples.world_google_only).2
    = (true, inr info)
    /\ 1024 <= ScraperChecks.info_file_size info.
Proof.
  apply (downloaded_file_validates Examples.scraper Examples.url_a
           "Dove Soap" (Some "p1"%string) 3 Examples.world_google_only
           "scraped_images/dove_soap_p1.jpeg").
  vm_compute. reflexivity.
Defined.


(** ** File names *)






(** ** URL filters *)

Lemma lower_app (a b : string) :
  Py.lower (a ++ b) = (Py.lower a ++ Py.lower b)%string.
Proof.
  induction a as [|c a IH]; simpl; [reflexivity|]. rewrite IH. reflexivity.
Qed.

Lemma prefix_nil (t : string) : String.prefix "" t = true.
Proof. destruct t; reflexivity. Qed.

Lemma prefix_app (s t b : string) :
  String.prefix s t = true -> String.prefix s (t ++ b) = true.
Proof.
  revert t. induction s as [|c s IH]; intros t; [intros _; apply prefix_nil|].
  destruct t as [|d t]; simpl; [discriminate|].
  destruct (ascii_dec c d); [apply IH|discriminate].
Qed.

Lemma prefix_self_app (s b : string) : String.prefix s (s ++ b) = true.
Proof.
  induction s as [|c s IH]; simpl; [apply prefix_nil|].
  destruct (ascii_dec c c); [assumption|contradiction].
Qed.

Lemma contains_unfold (s t : string) :
  Py.contains s t
  = if String.prefix s t then true
    else match t with
         | EmptyString => false
         | String _ r => Py.contains s r
         end.
Proof. destruct t; reflexivity. Qed.

Lemma contains_app_r (s t b : string) :
  Py.contains s t = true -> Py.contains s (t ++ b) = true.
Proof.
  induction t as [|d t IH]; rewrite (contains_unfold s).
  - destruct (String.prefix s "") eqn:Hp; [|discriminate].
    intros _. destruct s; [|discriminate].
    rewrite contains_unfold, prefix_nil. reflexivity.
  - destruct (String.prefix s (String d t)) eqn:Hp.
    + intros _. rewrite contains_unfold.
      rewrite (prefix_app s (String d t) b Hp). reflexivity.
    + intros Ht. change (String d t ++ b)%string with (String d (t ++ b)).
      rewrite contains_unfold.
      destruct (String.prefix s (String d (t ++ b)));
        [reflexivity|apply IH; assumption].
Qed.

Lemma contains_app_l (s a t : string) :
  Py.contains s t = true -> Py.contains s (a ++ t) = true.
Proof.
  intros Ht. induction a as [|c a IH]; [assumption|].
  change (String c a ++ t)%string with (String c (a ++ t)).
  rewrite (contains_unfold s (String c (a ++ t))).
  destruct (String.prefix s (String c (a ++ t))); [reflexivity|assumption].
Qed.

Lemma contains_middle (s a b : string) :
  Py.contains s (a ++ s ++ b) = true.
Proof.
  apply contains_app_l. rewrite contains_unfold, prefix_self_app.
  reflexivity.
Qed.

(** The scraper's URL filter rejects every URL in which one of the words
    logo, icon, sprite, button, banner, ad, tracking occurs anywhere, in
    any letter case, whatever its extension: "ad" alone rules out every
    URL that contains "upload", "download" or "shadow". *)
Theorem excluded_word_rejects_url (word before after : string) :
  Py.lower word ∈ ScraperChecks.exclude_patterns ->
  ScraperChecks._is_valid_image_url (before ++ word ++ after) = false.
Proof.
  intros Hword. unfold ScraperChecks._is_valid_image_url.
  destruct (String.eqb _ ""); [reflexivity|]. cbv zeta.
  assert (Hexcluded :
    existsb (fun pattern =>
               Py.contains pattern (Py.lower (before ++ word ++ after)))
      ScraperChecks.exclude_patterns = true).
  { apply existsb_exists. exists (Py.lower word).
    split; [apply list_elem_of_In; assumption|].
    rewrite !lower_app. apply contains_middle. }
  rewrite Hexcluded. apply andb_false_r.
Qed.

Lemma excluded_word_rejects_url_witness :
  ScraperChecks._is_valid_image_url
    ("https://cdn.shop.example/Downlo" ++ "AD" ++ "s/soap.jpg") = false.
Proof.
  apply (excluded_word_rejects_url "AD" "https://cdn.shop.example/Downlo"
           "s/soap.jpg").
  change (Py.lower "AD") with "ad"%string.
  unfold ScraperChecks.exclude_patterns. rewrite !elem_of_cons. auto 10.
Defined.

(** The two URL filters compared: a URL the scraper's filter accepts is
    accepted by the downloader's filter as well, unless it does not name
    an image extension and was let in for containing "product", the one
    keyword only the scraper knows. *)
Theorem scraper_filter_is_stricter (url : string) :
  ScraperChecks._is_valid_image_url url = true ->
  Py.contains "product" (Py.lower url) = false ->
  Downloader._is_valid_image_url url = true.
Proof.
  unfold ScraperChecks._is_valid_image_url, Downloader._is_valid_image_url.
  destruct (String.eqb url ""); [discriminate|]. cbv zeta.
  unfold ScraperChecks.image_extensions, ScraperChecks.image_patterns.
  cbn [existsb]. intros Hvalid Hproduct.
  apply andb_true_iff in Hvalid as [Hvalid _].
  rewrite Hproduct in Hvalid.
  rewrite !orb_true_iff in Hvalid. rewrite !orb_true_iff.
  intuition discriminate.
Qed.

Lemma scraper_filter_is_stricter_witness :
  Downloader._is_valid_image_url "https://shop.example/img/soap.jpg" = true.
Proof.
  apply (scraper_filter_is_stricter "https://shop.example/img/soap.jpg");
    vm_compute; reflexivity.
Defined.

(** ** The company-website search *)

Lemma fromkeys_from_fixed (seen : gset string) (l : list string) :
  NoDup l -> (forall x, x ∈ l -> x ∉ seen) ->
  Py.fromkeys_from seen l = l.
Proof.
  revert seen. induction l as [|x l IH]; intros seen Hnodup Hseen;
    simpl; [reflexivity|].
  apply NoDup_cons in Hnodup as [Hx Hnodup].
  destruct (decide (x ∈ seen)) as [Hin|_].
  - exfalso. apply (Hseen x); [left|assumption].
  - f_equal. apply IH; [assumption|].
    intros y Hy. rewrite elem_of_union, elem_of_singleton.
    intros [->|Hs]; [contradiction|].
    apply (Hseen y); [right; assumption|assumption].
Qed.

Lemma dict_fromkeys_fixed (l : list string) :
  NoDup l -> Py.dict_fromkeys l = l.
Proof.
  intros Hnodup. apply fromkeys_from_fixed; [assumption|].
  intros x _. apply not_elem_of_empty.
Qed.

Lemma run_company_attempt (product_name brand_name : string) (w : world) :
  run (Downloader.company_attempt product_name brand_name) w
  = (take 5 (Py.dict_fromkeys
               (Parts.company_image_urls w product_name brand_name)), w).
Proof.
  unfold Downloader.company_attempt, Parts.company_image_urls. cbv zeta.
  destruct (Downloader.find_company_domain _) as [company_domain|].
  - rewrite run_bind, run_trigger_bind. cbn [handle fst snd].
    destruct (match company_pages w _ with
              | Some srcs =>
                  Downloader.absolute company_domain
                    <$> List.filter Downloader._is_valid_image_url srcs
              | None => []
              end) as [|found others].
    + rewrite run_ret. cbn [fst snd]. rewrite run_bind, run_ret.
      cbn [fst snd].
      destruct (Downloader.patterns company_domain product_name brand_name)
        eqn:Hpatterns; [discriminate|].
      rewrite run_ret. reflexivity.
    + rewrite run_ret. cbn [fst snd]. rewrite run_bind, run_ret.
      cbn [fst snd]. rewrite run_ret. reflexivity.
  - rewrite run_bind, run_ret. cbn [fst snd].
    rewrite run_bind, run_trigger_bind. cbn [handle fst snd].
    rewrite !run_ret. reflexivity.
Qed.

Lemma company_image_urls_http (w : world) (product_name brand_name : string) :
  Parts.company_image_urls w product_name brand_name <> []
  /\ Forall (fun u => String.prefix "http" u = true)
       (Parts.company_image_urls w product_name brand_name).
Proof.
  unfold Parts.company_image_urls. cbv zeta.
  assert (Hgeneric : forall h,
    Downloader.generic_images product_name h <> []
    /\ Forall (fun u => String.prefix "http" u = true)
         (Downloader.generic_images product_name h)).
  { intros h. split; [discriminate|]. repeat constructor. }
  destruct (Downloader.find_company_domain _) as [company_domain|];
    [|apply Hgeneric].
  destruct (match company_pages w _ with
            | Some srcs =>
                Downloader.absolute company_domain
                  <$> List.filter Downloader._is_valid_image_url srcs
            | None => []
            end) as [|found others] eqn:Hfound.
  - split; [discriminate|]. repeat constructor.
  - split; [discriminate|].
    destruct (company_pages w _) as [srcs|]; [|discriminate].
    rewrite <- Hfound. apply Forall_fmap, Forall_forall. intros src _.
    simpl. unfold Downloader.absolute.
    destruct (String.prefix "http" src) eqn:Hsrc; [assumption|reflexivity].
Qed.

Lemma run_search_company_websites (product_name brand_name : string)
    (max_retries : Z) (w : world) :
  1 <= max_retries ->
  run (Downloader.search_company_websites product_name brand_name
         max_retries) w
  = (take 5 (Py.dict_fromkeys
               (Parts.company_image_urls w product_name brand_name)), w)
  /\ take 5 (Py.dict_fromkeys
               (Parts.company_image_urls w product_name brand_name)) <> [].
Proof.
  intros Hge. unfold Downloader.search_company_websites.
  destruct (Z.to_nat max_retries) as [|remaining] eqn:Hrem; [lia|].
  cbn [Downloader.company_loop].
  rewrite run_bind, run_company_attempt. cbn [fst snd].
  destruct (company_image_urls_http w product_name brand_name) as (Hne & _).
  set (urls := Parts.company_image_urls w product_name brand_name) in *.
  assert (Hfirst : exists first others,
             take 5 (Py.dict_fromkeys urls) = first :: others).
  { destruct urls as [|x l]; [contradiction|].
    destruct (dict_fromkeys_cons x l) as (r & ->). simpl. eauto. }
  destruct Hfirst as (first & others & Hfirst).
  rewrite Hfirst, run_ret. split; [reflexivity|discriminate].
Qed.





Lemma string_app_inj (a x y : string) :
  (a ++ x)%string = (a ++ y)%string -> x = y.
Proof.
  induction a as [|c a IH]; simpl; [auto|]. intros [= H]. auto.
Qed.

Lemma string_length_app (a b : string) :
  String.length (a ++ b) = (String.length a + String.length b)%nat.
Proof. induction a as [|c a IH]; simpl; [reflexivity|]. rewrite IH. reflexivity. Qed.

Lemma patterns_NoDup (company_domain product_name brand_name : string) :
  NoDup (Downloader.patterns company_domain product_name brand_name).
Proof.
  unfold Downloader.patterns. cbv zeta.
  set (cp := Py.spaces_to_hyphens (Py.lower (Py.strip_non_alnum product_name))).
  set (cb := Py.spaces_to_hyphens (Py.lower (Py.strip_non_alnum brand_name))).
  assert (Hsame : forall x y : string,
    ("https://" ++ company_domain ++ x)%string
    = ("https://" ++ company_domain ++ y)%string -> x = y).
  { intros x y H. simpl in H. injection H as H.
    apply (string_app_inj company_domain x y) in H. exact H. }
  assert (Hcdn : forall x y : string,
    ("https://" ++ company_domain ++ x)%string
    = ("https://cdn." ++ company_domain ++ y)%string ->
    String.length x = (4 + String.length y)%nat).
  { intros x y H. simpl in H. injection H as H.
    apply (f_equal String.length) in H.
    rewrite !string_length_app in H. simpl in H. lia. }
  repeat (apply NoDup_cons; split);
    rewrite ?elem_of_cons, ?elem_of_nil; try apply NoDup_nil_2.
  - intros [H|[H|[H|[H|[]]]]].
    + apply Hsame in H. discriminate.
    + apply Hsame in H. discriminate.
    + apply Hsame in H. discriminate.
    + apply Hcdn in H. rewrite !string_length_app in H. simpl in H. lia.
  - intros [H|[H|[H|[]]]].
    + apply Hsame in H. discriminate.
    + apply Hsame in H. discriminate.
    + apply Hcdn in H. rewrite !string_length_app in H. simpl in H. lia.
  - intros [H|[H|[]]].
    + apply Hsame in H. discriminate.
    + apply Hcdn in H. rewrite !string_length_app in H. simpl in H. lia.
  - intros [H|[]].
    apply Hcdn in H. rewrite !string_length_app in H. simpl in H. lia.
  - tauto.
Qed.

(** For a brand of the table whose site search gives no usable image (the
    request fails, or no [img] source passes the URL filter),
    [search_company_websites] returns five guessed paths on the brand's
    domain.  None of them is requested: they are returned whether or not
    anything exists there. *)
Theorem known_brand_gets_guessed_paths (product_name brand_name : string)
    (max_retries : Z) (w : world) (company_domain : string) :
  1 <= max_retries ->
  Downloader.find_company_domain
    (Py.lower (if String.eqb brand_name "" then product_name
               else brand_name)) = Some company_domain ->
  (forall srcs,
     company_pages w
       ("https://" ++ company_domain ++ "/search?q="
        ++ Py.quote (Py.strip (product_name ++ " " ++ brand_name)))
     = Some srcs ->
     List.filter Downloader._is_valid_image_url srcs = []) ->
  run (Downloader.search_company_websites product_name brand_name
         max_retries) w
  = (Downloader.patterns company_domain product_name brand_name, w)
  /\ length (Downloader.patterns company_domain product_name brand_name)
     = 5%nat.
Proof.
  intros Hge Hknown Hpage. split; [|reflexivity].
  destruct (run_search_company_websites product_name brand_name
              max_retries w Hge) as (-> & _).
  unfold Parts.company_image_urls. cbv zeta. rewrite Hknown.
  assert (Hnone :
    match
      company_pages w
        ("https://" ++ company_domain ++ "/search?q="
         ++ Py.quote (Py.strip (product_name ++ " " ++ brand_name)))
    with
    | Some srcs =>
        Downloader.absolute company_domain
          <$> List.filter Downloader._is_valid_image_url srcs
    | None => []
    end = []).
  { destruct (company_pages w _) as [srcs|] eqn:Hsrcs; [|reflexivity].
    rewrite (Hpage srcs eq_refl). reflexivity. }
  rewrite Hnone.
  rewrite dict_fromkeys_fixed by apply patterns_NoDup.
  reflexivity.
Qed.

Lemma known_brand_gets_guessed_paths_witness :
  (run (Downloader.search_company_websites "Dove Soap 100g" "Dove" 3)
     Examples.world_offline).1
  = [ "https://dove.com/images/products/dove-soap-100g.jpg";
      "https://dove.com/assets/images/dove-dove-soap-100g.jpg";
      "https://dove.com/media/catalog/product/dove-soap-100g.jpg";
      "https://dove.com/wp-content/uploads/dove-soap-100g.jpg";
      "https://cdn.dove.com/products/dove-soap-100g.jpg" ]%string.
Proof.
  destruct (known_brand_gets_guessed_paths "Dove Soap 100g" "Dove" 3
              Examples.world_offline "dove.com") as (Hrun & _);
    [lia|reflexivity|discriminate|].
  rewrite Hrun. reflexivity.
Defined.

(** ** The downloader's merged search *)












(** ** The downloader's file handling *)

Lemma substring_whole (b : string) :
  String.substring 0 (String.length b) b = b.
Proof.
  induction b as [|c b IH]; simpl; [reflexivity|]. rewrite IH. reflexivity.
Qed.

Lemma substring_app_r (a b : string) :
  String.substring (String.length a) (String.length b) (a ++ b) = b.
Proof.
  induction a as [|c a IH]; simpl; [apply substring_whole|exact IH].
Qed.

Lemma endswith_app (s ext : string) :
  DownloaderFiles.endswith (s ++ ext) ext = true.
Proof.
  unfold DownloaderFiles.endswith. cbv zeta. rewrite string_length_app.
  replace (String.length s + String.length ext - String.length ext)%nat
    with (String.length s) by lia.
  rewrite substring_app_r, String.eqb_refl, andb_true_r.
  apply Nat.leb_le. lia.
Qed.

Lemma with_extension_fixed (filename : string) :
  DownloaderFiles.with_extension (DownloaderFiles.with_extension filename)
  = DownloaderFiles.with_extension filename.
Proof.
  unfold DownloaderFiles.with_extension.
  destruct (existsb (DownloaderFiles.endswith (Py.lower filename)) _) eqn:H.
  - rewrite H. reflexivity.
  - rewrite lower_app. change (Py.lower ".jpg") with ".jpg"%string.
    cbn [existsb]. rewrite endswith_app. reflexivity.
Qed.








(** The name a download is stored under always ends, whatever its case, in
    one of [.jpg], [.jpeg], [.png] and [.webp]: a name that does is kept
    as it is, any other gets [.jpg] appended, and doing so twice changes
    nothing more. *)
Theorem stored_name_has_image_extension (filename : string) :
  existsb (DownloaderFiles.endswith
             (Py.lower (DownloaderFiles.with_extension filename)))
    [".jpg"; ".jpeg"; ".png"; ".webp"]%string = true
  /\ (DownloaderFiles.with_extension filename = filename
      \/ (DownloaderFiles.with_extension filename = filename ++ ".jpg"
          /\ existsb (DownloaderFiles.endswith (Py.lower filename))
               [".jpg"; ".jpeg"; ".png"; ".webp"] = false))%string
  /\ DownloaderFiles.with_extension (DownloaderFiles.with_extension filename)
     = DownloaderFiles.with_extension filename.
Proof.
  split; [|split; [|apply with_extension_fixed]].
  - unfold DownloaderFiles.with_extension.
    destruct (existsb (DownloaderFiles.endswith (Py.lower filename)) _)
      eqn:H; [exact H|].
    rewrite lower_app. change (Py.lower ".jpg") with ".jpg"%string.
    cbn [existsb]. rewrite endswith_app. reflexivity.
  - unfold DownloaderFiles.with_extension.
    destruct (existsb (DownloaderFiles.endswith (Py.lower filename)) _);
      [left|right]; auto.
Qed.

(** A download whose target file already exists returns [True] at once: no
    request is sent, whatever the URL, and the file stays as it was. *)
Theorem existing_file_is_never_overwritten
    (content_type : nat -> string -> string)
    (output_dir image_url filename : string) (max_retries : Z) (w : world) :
  1 <= max_retries ->
  DownloaderFiles.os_path_exists w
    (Py.os_path_join output_dir (DownloaderFiles.with_extension filename))
  = true ->
  DownloaderFiles.download_image content_type output_dir image_url filename
    max_retries w = (true, w).
Proof.
  intros Hmax Hexists. unfold DownloaderFiles.download_image.
  destruct (Z.to_nat max_retries) as [|remaining] eqn:Hn; [lia|].
  cbn [DownloaderFiles.download_loop]. cbv zeta. rewrite Hexists.
  reflexivity.
Qed.

Lemma existing_file_is_never_overwritten_witness :
  1 <= 3
  /\ DownloaderFiles.os_path_exists MoreExamples.world_tiny_with_file
       (Py.os_path_join "scraped_images"
          (DownloaderFiles.with_extension "dove_soap_p1.png")) = true
  /\ DownloaderFiles.download_image (fun _ _ => "image/png"%string)
       "scraped_images" Examples.url_dot "dove_soap_p1.png" 3
       MoreExamples.world_tiny_with_file
     = (true, MoreExamples.world_tiny_with_file).
Proof.
  assert (Hmax : 1 <= 3) by lia.
  assert (Hexists :
    DownloaderFiles.os_path_exists MoreExamples.world_tiny_with_file
      (Py.os_path_join "scraped_images"
         (DownloaderFiles.with_extension "dove_soap_p1.png")) = true)
    by (vm_compute; reflexivity).
  split; [exact Hmax|]. split; [exact Hexists|].
  exact (existing_file_is_never_overwritten _ _ _ _ _ _ Hmax Hexists).
Defined.




Example download_stores_a_served_image :
  let out :=
    DownloaderFiles.download_image (fun _ _ => "image/jpeg"%string)
      "scraped_images" Examples.url_a "dove soap" 3
      Examples.world_google_only in
  out.1 = true
  /\ fs out.2 !! "scraped_images/dove soap.jpg"%string
     = Some (Examples.body Byte.x41 2000)
  /\ requests out.2 = [Examples.url_a].
Proof. vm_compute. repeat split. Qed.

Example download_refuses_a_web_page :
  let out :=
    DownloaderFiles.download_image (fun _ _ => "text/html"%string)
      "scraped_images" Examples.url_a "dove soap" 3
      Examples.world_google_only in
  out.1 = false
  /\ fs out.2 !! "scraped_images/dove soap.jpg"%string = None
  /\ requests out.2 = [Examples.url_a; Examples.url_a; Examples.url_a]
  /\ clock out.2 = clock Examples.world_google_only + 2000.
Proof. vm_compute. repeat split. Qed.

(** ** The fallback URL *)

